(** * Load-test script for the registration and login endpoints

    A shallow embedding of [Performance Testing/locustfile.py]: the session
    statistics, the three scenarios of [UserBehavior], the JUnit report and
    the shutdown handler [on_test_end], followed by the properties the
    specification states about them.

    Python integers are [Z]; Python floats are IEEE 754 binary64 values
    ([spec_float] with a 53 bit mantissa); strings are [string]; the
    mutable objects ([self.stats], [self.registered_users], the log, the
    report directory, [environment.process_exit_code]) live in an explicit
    state that a small state-and-exception monad threads through the code. *)

From Stdlib Require Import ZArith List String Ascii Bool Lia.
From Stdlib Require Import SpecFloat DecimalString.
From stdpp Require Import base option gmap strings.

Import ListNotations.
Local Open Scope string_scope.
Local Open Scope Z_scope.

(** ** Python values *)

Module Py.

(** *** Floats: binary64 *)

Definition prec : Z := 53.
Definition emax : Z := 1024.

Abbreviation float := spec_float.

Definition fmul (x y : float) : float := SFmul prec emax x y.
Definition fdiv (x y : float) : float := SFdiv prec emax x y.
Definition flt (x y : float) : bool := SFltb x y.
Definition fle (x y : float) : bool := SFleb x y.

(** [float(n)] for an integer [n]: the nearest double, exact below 2^53. *)
Definition float_of_int (n : Z) : float := binary_normalize prec emax n 0 false.

(** The integer [n] as the pair mantissa [|n|], exponent [0]. *)
Definition exact_int (n : Z) : float :=
  match n with
  | Z0 => S754_zero false
  | Zpos p => S754_finite false p 0
  | Zneg p => S754_finite true p 0
  end.

(** [max(a, b)] on two numbers: [b] replaces [a] only when [b > a]. *)
Definition max (a b : float) : float := if flt a b then b else a.

(** *** Exceptions *)

Inductive exception :=
| ZeroDivisionError
| IndexError (text : string)
| KeyError (key : string)
| TypeError (text : string)
| AttributeError (text : string)
| JSONDecodeError (text : string).

(** [repr] of a key in a [KeyError]; the keys used are plain identifiers. *)
Definition repr_key (k : string) : string := "'" +:+ k +:+ "'".

(** [str(e)] *)
Definition str_exception (e : exception) : string :=
  match e with
  | ZeroDivisionError => "division by zero"
  | IndexError t => t
  | KeyError k => repr_key k
  | TypeError t => t
  | AttributeError t => t
  | JSONDecodeError t => t
  end.

(** *** State and exceptions

    A computation reads and writes a state [S] and either returns a value
    or raises; what it wrote before raising stays written. *)

Definition M (S A : Type) : Type := S -> (exception + A) * S.

Definition ret {S A} (a : A) : M S A := fun s => (inr a, s).
Definition raise {S A} (e : exception) : M S A := fun s => (inl e, s).
Definition bind {S A B} (m : M S A) (k : A -> M S B) : M S B :=
  fun s => match m s with
           | (inr a, s') => k a s'
           | (inl e, s') => (inl e, s')
           end.
Definition get {S} : M S S := fun s => (inr s, s).
Definition gets {S A} (f : S -> A) : M S A := fun s => (inr (f s), s).
Definition modify {S} (f : S -> S) : M S unit := fun s => (inr tt, f s).

(** [try: body except Exception as e: handler e] *)
Definition try_except {S A} (body : M S A) (handler : exception -> M S A) : M S A :=
  fun s => match body s with
           | (inr a, s') => (inr a, s')
           | (inl e, s') => handler e s'
           end.

Definition default_value {A} (d : A) (o : option A) : A :=
  match o with Some a => a | None => d end.

(** A pure computation that may raise, run inside a stateful one. *)
Definition lift {S A} (r : exception + A) : M S A := fun s => (r, s).

(** [str(n)] for an integer: decimal digits, a leading [-] when negative. *)
Definition str_int (n : Z) : string := NilZero.string_of_int (Z.to_int n).

(** [sub in s] on two strings. *)
Fixpoint str_contains (sub s : string) : bool :=
  String.prefix sub s ||
  match s with
  | EmptyString => false
  | String _ s' => str_contains sub s'
  end.

(** [''.join(chars)] *)
Definition join (chars : list ascii) : string := string_of_list_ascii chars.

(** [a / b] on two integers: the exact quotient rounded once to the
    nearest double (ties to even); a zero divisor raises.  CPython also
    raises OverflowError when the quotient leaves the double range, beyond
    2^1024, which no pair of request counters reaches; that case is the
    IEEE infinity here. *)
Definition int_true_div (a b : Z) : exception + float :=
  if b =? 0 then inl ZeroDivisionError
  else inr (fdiv (exact_int a) (exact_int b)).

End Py.

Notation "'let*' x := c 'in' k" := (Py.bind c (fun x => k))
  (at level 10, x name, c at level 100, k at level 200).

(** *** Parsed JSON: what [response.json()] returns *)

#[warnings="-register-all"]
Inductive json :=
| JNull
| JBool (b : bool)
| JInt (n : Z)
| JFloat (x : Py.float)
| JStr (s : string)
| JArr (items : list json)
| JObj (members : list (string * json)).

Module Json.
Import Py.

(** [type(v).__name__] *)
Definition type_name (v : json) : string :=
  match v with
  | JNull => "NoneType"
  | JBool _ => "bool"
  | JInt _ => "int"
  | JFloat _ => "float"
  | JStr _ => "str"
  | JArr _ => "list"
  | JObj _ => "dict"
  end.

(** The value bound to a key of a dict; a dict built by the JSON parser
    binds a key once, and the first binding of the list is the one read. *)
Fixpoint lookup (key : string) (members : list (string * json)) : option json :=
  match members with
  | [] => None
  | (k, v) :: rest => if String.eqb k key then Some v else lookup key rest
  end.

(** [v == 'text'] for a string literal. *)
Definition eq_str (v : json) (text : string) : bool :=
  match v with
  | JStr s => String.eqb s text
  | _ => false
  end.

(** [v[key]] for a string key (error texts as CPython 3.11 words them). *)
Definition getitem (v : json) (key : string) : exception + json :=
  match v with
  | JObj members =>
      match lookup key members with
      | Some x => inr x
      | None => inl (KeyError key)
      end
  | JArr _ => inl (TypeError "list indices must be integers or slices, not str")
  | JStr _ => inl (TypeError "string indices must be integers, not 'str'")
  | _ => inl (TypeError ("'" +:+ type_name v +:+ "' object is not subscriptable"))
  end.

(** [key in v] for a string key: a key of a dict, an element of a list, a
    substring of a string; other values are not containers. *)
Definition contains (key : string) (v : json) : exception + bool :=
  match v with
  | JObj members => inr (match lookup key members with Some _ => true | None => false end)
  | JArr items => inr (existsb (fun x => eq_str x key) items)
  | JStr s => inr (str_contains key s)
  | _ => inl (TypeError ("argument of type '" +:+ type_name v +:+ "' is not iterable"))
  end.

(** [v.get(key, default)]: only a dict has the method. *)
Definition get_default (v : json) (key : string) (default : json) : exception + json :=
  match v with
  | JObj members => inr (default_value default (lookup key members))
  | _ => inl (AttributeError ("'" +:+ type_name v +:+ "' object has no attribute 'get'"))
  end.

End Json.

(** [str(v)] inside an f-string.  A string is itself and an integer its
    decimal digits; [repr] stands for what Python prints for the other
    values (floats, lists, dicts). *)
Definition str (repr : json -> string) (v : json) : string :=
  match v with
  | JStr s => s
  | JInt n => Py.str_int n
  | JNull => "None"
  | JBool true => "True"
  | JBool false => "False"
  | _ => repr v
  end.

(** *** The clock *)

(** A reading of [datetime.now()]. *)
Record datetime := {
  year : Z; month : Z; day : Z;
  hour : Z; minute : Z; second : Z; microsecond : Z
}.

(** Two decimal digits, as [%m], [%d], [%H], [%M] and [%S] print them. *)
Definition two_digits (n : Z) : string :=
  if n <? 10 then "0" +:+ Py.str_int n else Py.str_int n.

(** [now.strftime("%Y-%m-%d %H:%M:%S")] *)
Definition strftime (now : datetime) : string :=
  Py.str_int (year now) +:+ "-" +:+ two_digits (month now) +:+ "-" +:+
  two_digits (day now) +:+ " " +:+ two_digits (hour now) +:+ ":" +:+
  two_digits (minute now) +:+ ":" +:+ two_digits (second now).

(** *** The [random] module

    The generator is a sequence of draws and the number already used. *)
Record rng := { draws : nat -> nat; used : nat }.

Definition next_below (n : nat) (g : rng) : nat * rng :=
  ((draws g (used g) mod n)%nat, {| draws := draws g; used := S (used g) |}).

(** ** The HTTP client, as the scenarios use it *)

Record request := {
  url : string;
  data : list (string * string);
  name : string
}.

(** What the scenarios read from a response: [response.json()], which
    returns the parsed body or raises, and
    [response.elapsed.total_seconds()]. *)
Record response := {
  body : Py.exception + json;
  total_seconds : Py.float
}.

(** What a scenario does to the outside: log lines, requests sent, and
    the verdict it gives the client for the request. *)
Inductive event :=
| LogInfo (message : string)
| LogError (message : string)
| Post (req : request)
| Success
| Failure (exc : json).


(** ** The script *)

(** [TestConfig] *)
Module TestConfig.
Definition FAILURE_THRESHOLD : Z := 1.
Definition MIN_REQUESTS : Z := 10.
Definition MAX_RESPONSE_TIME : Z := 2000.
Definition REPORT_DIR : string := "load_test_reports".
End TestConfig.

(** [Statistics]; [max_response_time] starts as the integer [0], which
    compares as the float [+0.0] does and is that float here. *)
Record Statistics := {
  total_requests : Z;
  failed_requests : Z;
  max_response_time : Py.float;
  start_time : datetime
}.

(** [Statistics.__init__] *)
Definition Statistics_init (now : datetime) : Statistics :=
  {| total_requests := 0;
     failed_requests := 0;
     max_response_time := S754_zero false;
     start_time := now |}.

(** [Statistics.failure_percentage]: the integer [0] before any request,
    a float afterwards. *)
Definition failure_percentage (st : Statistics) : Py.exception + json :=
  if total_requests st =? 0 then inr (JInt 0)
  else
    match Py.int_true_div (failed_requests st) (total_requests st) with
    | inl e => inl e
    | inr ratio => inr (JFloat (Py.fmul ratio (Py.float_of_int 100)))
    end.

(** The dict [generate_random_user] builds: five fixed keys. *)
Record user := {
  fullName : string;
  userName : string;
  email : string;
  password : string;
  phone : string
}.

(** The same dict as the form fields of a request, in insertion order. *)
Definition user_form (u : user) : list (string * string) :=
  [("fullName", fullName u); ("userName", userName u); ("email", email u);
   ("password", password u); ("phone", phone u)].

(** The attributes of a [UserBehavior] instance. *)
Record UserBehavior := {
  registered_users : list user;
  stats : Statistics
}.

(** [UserBehavior.__init__] *)
Definition UserBehavior_init (now : datetime) : UserBehavior :=
  {| registered_users := []; stats := Statistics_init now |}.

(** What a running session reads and writes: its own attributes, the
    random generator, and the events it has produced, oldest first. *)
Record session := {
  self : UserBehavior;
  random : rng;
  trace : list event
}.

Definition emit (e : event) : Py.M session unit :=
  Py.modify (fun s => {| self := self s; random := random s; trace := trace s ++ [e] |}).

Definition set_stats (f : Statistics -> Statistics) : Py.M session unit :=
  Py.modify (fun s =>
    {| self := {| registered_users := registered_users (self s);
                  stats := f (stats (self s)) |};
       random := random s; trace := trace s |}).

(** [self.registered_users.append(u)] *)
Definition registered_users_append (u : user) : Py.M session unit :=
  Py.modify (fun s =>
    {| self := {| registered_users := registered_users (self s) ++ [u];
                  stats := stats (self s) |};
       random := random s; trace := trace s |}).

(** One index below [n] from the generator. *)
Definition randbelow (n : nat) : Py.M session nat :=
  fun s => let (i, g) := next_below n (random s) in
           (inr i, {| self := self s; random := g; trace := trace s |}).

(** [random.choices(population, k=k)]: [k] independent picks
    [population[i]] with [i] below [len(population)]. *)
Fixpoint choices (population : list ascii) (k : nat) : Py.M session (list ascii) :=
  match k with
  | O => Py.ret []
  | S k' =>
      let* i := randbelow (length population) in
      match nth_error population i with
      | None => Py.raise (Py.IndexError "list index out of range")
      | Some c =>
          let* rest := choices population k' in
          Py.ret (c :: rest)
      end
  end.

(** [random.choice(seq)] *)
Definition choice (seq : list user) : Py.M session user :=
  match seq with
  | [] => Py.raise (Py.IndexError "Cannot choose from an empty sequence")
  | _ =>
      let* i := randbelow (length seq) in
      match nth_error seq i with
      | None => Py.raise (Py.IndexError "list index out of range")
      | Some u => Py.ret u
      end
  end.

Definition ascii_lowercase : list ascii :=
  list_ascii_of_string "abcdefghijklmnopqrstuvwxyz".
Definition digits : list ascii := list_ascii_of_string "0123456789".

(** [UserBehavior.generate_random_string] *)
Definition generate_random_string (length : nat) : Py.M session string :=
  let* chars := choices ascii_lowercase length in
  Py.ret (Py.join chars).

(** [UserBehavior.generate_random_user]; the default [length=8] is
    written out. *)
Definition generate_random_user : Py.M session user :=
  let* random_string := generate_random_string 8 in
  let* phone_chars := choices digits 10 in
  Py.ret {| fullName := "Test User " +:+ random_string;
            userName := "testuser_" +:+ random_string;
            email := "test_" +:+ random_string +:+ "@example.com";
            password := "password_" +:+ random_string;
            phone := Py.join phone_chars |}.

(** The line [log_scenario] hands to [logging.info]. *)
Definition scenario_message (now : datetime) (scenario status details : string) : string :=
  "[" +:+ strftime now +:+ "] Scenario: " +:+ scenario +:+ " | Status: " +:+ status
  +:+ " | Details: " +:+ details.

(** [status in ["FAIL", "ERROR"]] *)
Definition is_failure_status (status : string) : bool :=
  existsb (String.eqb status) ["FAIL"; "ERROR"].

(** [UserBehavior.log_scenario]; [now] is what [datetime.now()] reads
    during the call. *)
Definition log_scenario (now : datetime) (scenario status details : string)
  : Py.M session unit :=
  let* _ := emit (LogInfo (scenario_message now scenario status details)) in
  let* _ := set_stats (fun st =>
    {| total_requests := total_requests st + 1;
       failed_requests := failed_requests st;
       max_response_time := max_response_time st;
       start_time := start_time st |}) in
  if is_failure_status status then
    set_stats (fun st =>
      {| total_requests := total_requests st;
         failed_requests := failed_requests st + 1;
         max_response_time := max_response_time st;
         start_time := start_time st |})
  else Py.ret tt.

(** [self.client.post(url, data=..., catch_response=True, name=...)]: the
    request goes out and the server's response comes back. *)
Definition client_post (server : request -> response) (req : request)
  : Py.M session response :=
  let* _ := emit (Post req) in
  Py.ret (server req).

(** [response.json()['msg']] *)
Definition response_msg (r : response) : Py.M session json :=
  let* b := Py.lift (body r) in
  Py.lift (Json.getitem b "msg").

(** [response.json().get('msg', default)] *)
Definition response_msg_or (r : response) (default : string) : Py.M session json :=
  let* b := Py.lift (body r) in
  Py.lift (Json.get_default b "msg" (JStr default)).

(** [self.stats.max_response_time = max(self.stats.max_response_time, latency)] *)
Definition track_response_time (latency : Py.float) : Py.M session unit :=
  set_stats (fun st =>
    {| total_requests := total_requests st;
       failed_requests := failed_requests st;
       max_response_time := Py.max (max_response_time st) latency;
       start_time := start_time st |}).

Section Scenarios.

(** What Python prints for a parsed value that is neither a string nor an
    integer, [None] or a boolean; see [str]. *)
Variable repr : json -> string.

(** [now] is the clock reading of the invocation and [server] the
    endpoint under test. *)
Variable now : datetime.
Variable server : request -> response.

(** [UserBehavior.scenario_register_new_user] *)
Definition scenario_register_new_user : Py.M session unit :=
  let* user_data := generate_random_user in
  let* response := client_post server
    {| url := "/client_registeration";
       data := user_form user_data;
       name := "1. Register New User" |} in
  let* _ := Py.try_except
    (let* msg := response_msg response in
     if Json.eq_str msg "User Registered" then
       let* _ := log_scenario now "Registration" "SUCCESS"
                   ("User: " +:+ email user_data) in
       let* _ := emit Success in
       registered_users_append user_data
     else
       let* msg1 := response_msg response in
       let* _ := log_scenario now "Registration" "FAIL"
                   ("User: " +:+ email user_data +:+ ", Error: " +:+ str repr msg1) in
       let* msg2 := response_msg response in
       emit (Failure msg2))
    (fun e =>
       let* _ := log_scenario now "Registration" "ERROR" (Py.str_exception e) in
       emit (Failure (JStr ("Invalid response: " +:+ Py.str_exception e)))) in
  track_response_time (Py.fmul (total_seconds response) (Py.float_of_int 1000)).

(** [UserBehavior.scenario_login_with_email] *)
Definition scenario_login_with_email : Py.M session unit :=
  let* users := Py.gets (fun s => registered_users (self s)) in
  match users with
  | [] => log_scenario now "Login with Email" "SKIP" "No registered users available"
  | _ :: _ =>
      let* user := choice users in
      let payload :=
        [("userName", ""); ("email", email user); ("password", password user)] in
      let* response := client_post server
        {| url := "/client_login"; data := payload; name := "2. Login with Email" |} in
      Py.try_except
        (let* b := Py.lift (body response) in
         let* has_token := Py.lift (Json.contains "token" b) in
         if has_token then
           let* _ := log_scenario now "Login with Email" "SUCCESS"
                       ("User: " +:+ email user) in
           emit Success
         else
           let* msg1 := response_msg_or response "Unknown error" in
           let* _ := log_scenario now "Login with Email" "FAIL"
                       ("User: " +:+ email user +:+ ", Error: " +:+ str repr msg1) in
           let* msg2 := response_msg_or response "Login failed" in
           emit (Failure msg2))
        (fun e =>
           let* _ := log_scenario now "Login with Email" "ERROR" (Py.str_exception e) in
           emit (Failure (JStr ("Invalid response: " +:+ Py.str_exception e))))
  end.

(** [UserBehavior.scenario_login_with_username] *)
Definition scenario_login_with_username : Py.M session unit :=
  let* users := Py.gets (fun s => registered_users (self s)) in
  match users with
  | [] => log_scenario now "Login with Username" "SKIP" "No registered users available"
  | _ :: _ =>
      let* user := choice users in
      let payload :=
        [("userName", userName user); ("email", ""); ("password", password user)] in
      let* response := client_post server
        {| url := "/client_login"; data := payload; name := "3. Login with Username" |} in
      Py.try_except
        (let* b := Py.lift (body response) in
         let* has_token := Py.lift (Json.contains "token" b) in
         if has_token then
           let* _ := log_scenario now "Login with Username" "SUCCESS"
                       ("User: " +:+ userName user) in
           emit Success
         else
           let* msg1 := response_msg_or response "Unknown error" in
           let* _ := log_scenario now "Login with Username" "FAIL"
                       ("User: " +:+ userName user +:+ ", Error: " +:+ str repr msg1) in
           let* msg2 := response_msg_or response "Login failed" in
           emit (Failure msg2))
        (fun e =>
           let* _ := log_scenario now "Login with Username" "ERROR" (Py.str_exception e) in
           emit (Failure (JStr ("Invalid response: " +:+ Py.str_exception e))))
  end.

End Scenarios.

(** The three tasks of the sequential task set. *)
Inductive task := Register | LoginWithEmail | LoginWithUsername.

Definition run_task (repr : json -> string) (t : task) (now : datetime)
  (server : request -> response) : Py.M session unit :=
  match t with
  | Register => scenario_register_new_user repr now server
  | LoginWithEmail => scenario_login_with_email repr now server
  | LoginWithUsername => scenario_login_with_username repr now server
  end.

(** A session's life: the scheduler runs task after task, each with the
    clock reading and the server behaviour of its moment; the session
    keeps whatever state a task leaves. *)
Definition schedule := list (task * datetime * (request -> response)).

Definition run_schedule (repr : json -> string) (sched : schedule) (s : session)
  : session :=
  fold_left (fun s '(t, now, server) => snd (run_task repr t now server s)) sched s.

(** A session as the scheduler creates it. *)
Definition new_session (now : datetime) (g : rng) : session :=
  {| self := UserBehavior_init now; random := g; trace := [] |}.

(** ** Reports and the shutdown handler *)

(** The scheduler's aggregate, [environment.stats.total].  The handler
    reads the counters [num_requests] and [num_failures] and the float
    [avg_response_time] from it; [extra] holds whatever further attributes
    the object has. *)
Record StatsEntry := {
  num_requests : Z;
  num_failures : Z;
  avg_response_time : Py.float;
  extra : gmap string json
}.

(** [stats.<attribute>] by name. *)
Definition getattr (o : StatsEntry) (attribute : string) : Py.exception + json :=
  if String.eqb attribute "num_requests" then inr (JInt (num_requests o))
  else if String.eqb attribute "num_failures" then inr (JInt (num_failures o))
  else if String.eqb attribute "avg_response_time" then inr (JFloat (avg_response_time o))
  else match extra o !! attribute with
       | Some v => inr v
       | None => inl (Py.AttributeError
           ("'StatsEntry' object has no attribute '" +:+ attribute +:+ "'"))
       end.

(** What a report file holds: text, or the [json.dump] of a value. *)
Inductive content :=
| Text (text : string)
| JsonDump (value : json) (indent : Z).

(** The process at shutdown: the aggregate, the exit code the scheduler
    will use ([None] until a handler sets it), the working directory and
    the log.  The directory takes every [mkdir] and every write; a disk
    that refuses them is outside the model. *)
Record process := {
  total : StatsEntry;
  process_exit_code : option Z;
  directories : gset string;
  files : gmap string content;
  log : list event
}.

Definition logging (e : event) : Py.M process unit :=
  Py.modify (fun p =>
    {| total := total p; process_exit_code := process_exit_code p;
       directories := directories p; files := files p; log := log p ++ [e] |}).

Definition set_exit_code (code : Z) : Py.M process unit :=
  Py.modify (fun p =>
    {| total := total p; process_exit_code := Some code;
       directories := directories p; files := files p; log := log p |}).

(** [Path(dir).mkdir(exist_ok=True)] *)
Definition mkdir (dir : string) : Py.M process unit :=
  Py.modify (fun p =>
    {| total := total p; process_exit_code := process_exit_code p;
       directories := {[ dir ]} ∪ directories p; files := files p; log := log p |}).

(** [with open(path, "w") as f: ...] writing [c]. *)
Definition write_file (path : string) (c : content) : Py.M process unit :=
  Py.modify (fun p =>
    {| total := total p; process_exit_code := process_exit_code p;
       directories := directories p; files := <[ path := c ]> (files p); log := log p |}).

(** [Path(dir) / file] *)
Definition path_join (dir file : string) : string := dir +:+ "/" +:+ file.

Definition newline : string := String (ascii_of_nat 10) EmptyString.
Definition quote : string := String (ascii_of_nat 34) EmptyString.

(** The f-string of [generate_junit_report] with its two holes filled. *)
Definition junit_template (tests failures : string) : string :=
  "<?xml version=" +:+ quote +:+ "1.0" +:+ quote +:+ " encoding=" +:+ quote +:+ "UTF-8"
    +:+ quote +:+ "?>" +:+ newline +:+
  "<testsuites>" +:+ newline +:+
  "    <testsuite name=" +:+ quote +:+ "Load Test Results" +:+ quote +:+ " tests=" +:+ quote
    +:+ tests +:+ quote +:+ " failures=" +:+ quote +:+ failures +:+ quote +:+ ">" +:+ newline +:+
  "        <testcase name=" +:+ quote +:+ "Performance Requirements" +:+ quote
    +:+ " classname=" +:+ quote +:+ "LoadTest" +:+ quote +:+ ">" +:+ newline +:+
  "            " +:+ "<failure message=" +:+ quote +:+ "Failed performance requirements"
    +:+ quote +:+ "/>" +:+ newline +:+
  "        </testcase>" +:+ newline +:+
  "    </testsuite>" +:+ newline +:+
  "</testsuites>".

(** [datetime.now() - environment.runner.stats.start_time], whose right
    operand belongs to the scheduler: the elapsed time, given by its text,
    when the start time is a datetime; no subtraction at all when it is a
    value a datetime does not subtract (a float timestamp), and then the
    text of the TypeError. *)
Inductive duration :=
| Elapsed (text : string)
| Unsupported (error : string).

(** [str(datetime.now() - environment.runner.stats.start_time)] *)
Definition str_elapsed (d : duration) : Py.exception + string :=
  match d with
  | Elapsed text => inr text
  | Unsupported error => inl (Py.TypeError error)
  end.

Section Shutdown.

Variable repr : json -> string.

(** [generate_junit_report(stats)] *)
Definition generate_junit_report (stats : StatsEntry) : Py.M process unit :=
  let report_dir := TestConfig.REPORT_DIR in
  let* _ := mkdir report_dir in
  let* tests := Py.lift (getattr stats "total_requests") in
  let* failures := Py.lift (getattr stats "failed_requests") in
  write_file (path_join report_dir "load_test_results.xml")
             (Text (junit_template (str repr tests) (str repr failures))).

(** [x > n] for a float [x] and an integer constant [n] that a double
    holds exactly. *)
Definition exceeds (x : Py.float) (n : Z) : bool := Py.flt (Py.float_of_int n) x.

(** The verdict of [on_test_end]. *)
Definition failed_verdict (failure_percent avg_response_time : Py.float)
  (requests : Z) : bool :=
  exceeds failure_percent TestConfig.FAILURE_THRESHOLD
  || exceeds avg_response_time TestConfig.MAX_RESPONSE_TIME
  || (requests <? TestConfig.MIN_REQUESTS).

(** [on_test_end(environment)] *)
Definition on_test_end (elapsed : duration) : Py.M process unit :=
  let* stats := Py.gets total in
  if num_requests stats =? 0 then
    let* _ := logging (LogError "No requests were made during the test!") in
    set_exit_code 1
  else
    let* ratio := Py.lift (Py.int_true_div (num_failures stats) (num_requests stats)) in
    let failure_percent := Py.fmul ratio (Py.float_of_int 100) in
    let avg := avg_response_time stats in
    let* test_duration := Py.lift (str_elapsed elapsed) in
    let report := JObj
      [("total_requests", JInt (num_requests stats));
       ("failed_requests", JInt (num_failures stats));
       ("failure_percentage", JFloat failure_percent);
       ("average_response_time", JFloat avg);
       ("test_duration", JStr test_duration)] in
    let report_dir := TestConfig.REPORT_DIR in
    let* _ := mkdir report_dir in
    let* _ := write_file (path_join report_dir "load_test_report.json")
                         (JsonDump report 2) in
    let* _ := generate_junit_report stats in
    if failed_verdict failure_percent avg (num_requests stats) then
      let* _ := logging (LogError "Load test failed to meet requirements!") in
      set_exit_code 1
    else
      let* _ := logging (LogInfo "Load test completed successfully!") in
      set_exit_code 0.

End Shutdown.

(** ** Vocabulary of the properties *)

(** A run of [log_scenario] calls, each with its clock reading. *)
Definition log_call : Type := datetime * string * string * string.

Definition log_scenarios (calls : list log_call) (s : session) : session :=
  fold_left
    (fun s '(now, scenario, status, details) =>
       snd (log_scenario now scenario status details s))
    calls s.

Definition is_lowercase (c : ascii) : bool :=
  (97 <=? nat_of_ascii c)%nat && (nat_of_ascii c <=? 122)%nat.

Definition is_decimal_digit (c : ascii) : bool :=
  (48 <=? nat_of_ascii c)%nat && (nat_of_ascii c <=? 57)%nat.

Definition all_chars (P : ascii -> bool) (s : string) : bool :=
  forallb P (list_ascii_of_string s).

(** The session with another generator state. *)
Definition with_random (s : session) (g : rng) : session :=
  {| self := self s; random := g; trace := trace s |}.

(** The latency the register scenario observes, in milliseconds. *)
Definition latency_ms (r : response) : Py.float :=
  Py.fmul (total_seconds r) (Py.float_of_int 1000).

(** The request the register scenario sends for a generated user. *)
Definition register_request (u : user) : request :=
  {| url := "/client_registeration"; data := user_form u;
     name := "1. Register New User" |}.

(** [response.json()['msg']] as a value: what the lookup returns or raises. *)
Definition msg_of (r : response) : Py.exception + json :=
  match body r with
  | inl e => inl e
  | inr b => Json.getitem b "msg"
  end.

(** The three events of a scenario that sent a request: the request, the
    log line, and the verdict given to the client. *)
Definition exchange (req : request) (now : datetime)
  (scenario status details : string) (verdict : event) : list event :=
  [Post req; LogInfo (scenario_message now scenario status details); verdict].

(** The requests of the two login scenarios for a chosen user. *)
Definition login_with_email_request (u : user) : request :=
  {| url := "/client_login";
     data := [("userName", ""); ("email", email u); ("password", password u)];
     name := "2. Login with Email" |}.

Definition login_with_username_request (u : user) : request :=
  {| url := "/client_login";
     data := [("userName", userName u); ("email", ""); ("password", password u)];
     name := "3. Login with Username" |}.

(** The events of a scenario whose response could not be interpreted. *)
Definition error_exchange (req : request) (now : datetime) (scenario : string)
  (e : Py.exception) : list event :=
  exchange req now scenario "ERROR" (Py.str_exception e)
    (Failure (JStr ("Invalid response: " +:+ Py.str_exception e))).

(** What a login scenario that sent [req] and received [r] adds to the
    trace, by the shape of the response; [who] is the user as the log
    line names it. *)
Definition login_outcome (repr : json -> string) (now : datetime)
  (scenario who : string) (req : request) (r : response)
  (added : list event) : Prop :=
  match body r with
  | inl e => added = error_exchange req now scenario e
  | inr (JObj members) =>
      match Json.lookup "token" members with
      | Some _ =>
          added = exchange req now scenario "SUCCESS" ("User: " +:+ who) Success
      | None =>
          added = exchange req now scenario "FAIL"
            ("User: " +:+ who +:+ ", Error: "
             +:+ str repr (Py.default_value (JStr "Unknown error")
                             (Json.lookup "msg" members)))
            (Failure (Py.default_value (JStr "Login failed")
                        (Json.lookup "msg" members)))
      end
  | inr b =>
      match Json.contains "token" b with
      | inr true =>
          added = exchange req now scenario "SUCCESS" ("User: " +:+ who) Success
      | _ => exists e, added = error_exchange req now scenario e
      end
  end.

(** A parsed body is a JSON object with the given field. *)
Definition has_field (key : string) (b : Py.exception + json) : bool :=
  match b with
  | inr (JObj members) =>
      match Json.lookup key members with Some _ => true | None => false end
  | _ => false
  end.

(** Concrete inputs on which the model is run below. *)
Definition sample_now : datetime :=
  {| year := 2024; month := 3; day := 9;
     hour := 14; minute := 5; second := 0; microsecond := 0 |}.

Definition sample_rng : rng := {| draws := fun i => (7 * i + 3)%nat; used := 0 |}.

Definition sample_repr (v : json) : string := "<" +:+ Json.type_name v +:+ ">".

Definition sample_user : user :=
  {| fullName := "Test User abcdefgh";
     userName := "testuser_abcdefgh";
     email := "test_abcdefgh@example.com";
     password := "password_abcdefgh";
     phone := "0123456789" |}.

(** A session that has registered [sample_user]. *)
Definition sample_session : session :=
  {| self := {| registered_users := [sample_user];
                stats := {| total_requests := 1; failed_requests := 0;
                            max_response_time := S754_zero false;
                            start_time := sample_now |} |};
     random := sample_rng;
     trace := [] |}.

(** A server that answers every request with the same parsed body after
    one second. *)
Definition answering (b : json) (req : request) : response :=
  {| body := inr b; total_seconds := Py.float_of_int 1 |}.

(** [0 <= x] on floats; it fails for a NaN. *)
Definition nonneg (x : Py.float) : Prop := Py.fle (S754_zero false) x = true.

(** The session's [max_response_time]. *)
Definition max_seen (s : session) : Py.float := max_response_time (stats (self s)).

(** A computation that leaves [max_response_time] as it found it, whether
    it returns or raises. *)
Definition keeps_max {A} (m : Py.M session A) : Prop :=
  forall s, max_seen (snd (m s)) = max_seen s.

(** The two report files. *)
Definition json_report_path : string :=
  path_join TestConfig.REPORT_DIR "load_test_report.json".
Definition junit_report_path : string :=
  path_join TestConfig.REPORT_DIR "load_test_results.xml".

(** [failure_percent] as [on_test_end] computes it, for a non-zero
    [num_requests]. *)
Definition failure_percent (stats : StatsEntry) : Py.float :=
  Py.fmul (Py.fdiv (Py.exact_int (num_failures stats)) (Py.exact_int (num_requests stats)))
          (Py.float_of_int 100).

(** The dict [on_test_end] dumps as the JSON report. *)
Definition json_report (stats : StatsEntry) (test_duration : string) : json :=
  JObj [("total_requests", JInt (num_requests stats));
        ("failed_requests", JInt (num_failures stats));
        ("failure_percentage", JFloat (failure_percent stats));
        ("average_response_time", JFloat (avg_response_time stats));
        ("test_duration", JStr test_duration)].

(** A process about to shut down with the aggregate of a finished run:
    the counters and average the scheduler keeps, and no attribute
    besides. *)
Definition sample_process (requests failures : Z) (avg : Py.float) : process :=
  {| total := {| num_requests := requests; num_failures := failures;
                 avg_response_time := avg; extra := ∅ |};
     process_exit_code := None;
     directories := ∅; files := ∅; log := [] |}.

(** The invariant of the two counters. *)
Definition counters_ok (st : Statistics) : Prop :=
  0 <= failed_requests st <= total_requests st.

(** ** Vocabulary of the further properties *)

(** A [log_scenario] call whose status counts as a failure. *)
Definition is_failing_call (c : log_call) : bool :=
  let '(_, _, status, _) := c in is_failure_status status.

(** The kinds of events of a trace, and how many of a kind it holds. *)
Definition is_log_line (e : event) : bool :=
  match e with LogInfo _ => true | _ => false end.
Definition is_post (e : event) : bool :=
  match e with Post _ => true | _ => false end.
Definition is_success (e : event) : bool :=
  match e with Success => true | _ => false end.
Definition is_failure (e : event) : bool :=
  match e with Failure _ => true | _ => false end.

Definition count (kind : event -> bool) (t : list event) : Z :=
  Z.of_nat (length (List.filter kind t)).

(** What one scenario may add to the trace, with the change of
    [failed_requests] that goes with it: the log line of a skipped login,
    or a request with its log line and its verdict, a failure counted
    exactly when the verdict is [Failure]. *)
Definition accounted (added : list event) (failed_delta : Z) : Prop :=
  match added with
  | [LogInfo _] => failed_delta = 0
  | [Post _; LogInfo _; Success] => failed_delta = 0
  | [Post _; LogInfo _; Failure _] => failed_delta = 1
  | _ => False
  end.

(** A user as [generate_random_user] builds one. *)
Definition generated (u : user) : Prop :=
  exists token,
    String.length token = 8%nat /\ all_chars is_lowercase token = true /\
    fullName u = "Test User " +:+ token /\
    userName u = "testuser_" +:+ token /\
    email u = "test_" +:+ token +:+ "@example.com" /\
    password u = "password_" +:+ token /\
    String.length (phone u) = 10%nat /\
    all_chars is_decimal_digit (phone u) = true.

(** The server's answer to the registration of [u] is the success
    message. *)
Definition accepts (server : request -> response) (u : user) : bool :=
  match msg_of (server (register_request u)) with
  | inr msg => Json.eq_str msg "User Registered"
  | inl _ => false
  end.

(** A computation that leaves the observation [f] of the session as it
    found it, whether it returns or raises. *)
Definition leaves {A B} (f : session -> B) (m : Py.M session A) : Prop :=
  forall s, f (snd (m s)) = f s.

(** The users a session has registered. *)
Definition registered (s : session) : list user := registered_users (self s).

Definition is_register (t : task) : bool :=
  match t with Register => true | _ => false end.

(** The number of register tasks of a schedule. *)
Definition registrations (sched : schedule) : nat :=
  length (List.filter (fun '(t, _, _) => is_register t) sched).

(** An aggregate that also answers to the two attribute names
    [generate_junit_report] asks for. *)
Definition with_junit_attributes (tests failures : json) (p : process) : process :=
  {| total := {| num_requests := num_requests (total p);
                 num_failures := num_failures (total p);
                 avg_response_time := avg_response_time (total p);
                 extra := <[ "total_requests" := tests ]>
                            (<[ "failed_requests" := failures ]> (extra (total p))) |};
     process_exit_code := process_exit_code p;
     directories := directories p; files := files p; log := log p |}.

(** The aggregate has the attribute. *)
Definition has_attribute (stats : StatsEntry) (attribute : string) : bool :=
  match extra stats !! attribute with Some _ => true | None => false end.


(** No server of the schedule accepts a registration. *)
Definition rejecting (sched : schedule) : Prop :=
  forall t now server u, In (t, now, server) sched -> accepts server u = false.

(** A server that answers every registration with an error message. *)
Definition refusing : request -> response :=
  answering (JObj [("msg", JStr "User Already Exists")]).

(** The latencies the register tasks of a schedule observe, in the order
    of the tasks, each in milliseconds as line 98 computes it. *)
Fixpoint observed_latencies (repr : json -> string) (sched : schedule) (s : session)
  : list Py.float :=
  match sched with
  | [] => []
  | (t, now, server) :: rest =>
      match t, fst (generate_random_user s) with
      | Register, inr u => [latency_ms (server (register_request u))]
      | _, _ => []
      end ++ observed_latencies repr rest (snd (run_task repr t now server s))
  end.

(** A float that is a number: it compares with itself. *)
Definition is_number (x : Py.float) : bool := Py.fle x x.

(** * Properties *)

(** ** Statistics and [log_scenario] *)

Lemma log_scenario_run now scenario status details s :
  log_scenario now scenario status details s =
  (inr tt,
   {| self :=
        {| registered_users := registered_users (self s);
           stats :=
             {| total_requests := total_requests (stats (self s)) + 1;
                failed_requests :=
                  failed_requests (stats (self s))
                  + (if is_failure_status status then 1 else 0);
                max_response_time := max_response_time (stats (self s));
                start_time := start_time (stats (self s)) |} |};
      random := random s;
      trace := trace s ++ [LogInfo (scenario_message now scenario status details)] |}).
Proof.
  unfold log_scenario, Py.bind, emit, set_stats, Py.modify, Py.ret; simpl.
  destruct (is_failure_status status); simpl; repeat f_equal; lia.
Qed.

Lemma is_failure_status_spec status :
  is_failure_status status = true <-> status = "FAIL" \/ status = "ERROR".
Proof.
  unfold is_failure_status; simpl.
  rewrite !orb_true_iff, !String.eqb_eq. intuition congruence.
Qed.

(** C3: every call of [log_scenario] returns normally, adds exactly one
    to [total_requests] whatever the status (SKIP included), and adds
    exactly one to [failed_requests] when the status is FAIL or ERROR and
    nothing otherwise; SUCCESS and SKIP leave [failed_requests] as it was. *)
Theorem log_scenario_counters :
  forall now scenario status details s,
    let r := log_scenario now scenario status details s in
    let before := stats (self s) in
    let after := stats (self (snd r)) in
    fst r = inr tt /\
    total_requests after = total_requests before + 1 /\
    (failed_requests after = failed_requests before + 1
     <-> status = "FAIL" \/ status = "ERROR") /\
    (failed_requests after = failed_requests before
     <-> ~ (status = "FAIL" \/ status = "ERROR")) /\
    (status = "SUCCESS" \/ status = "SKIP" ->
     failed_requests after = failed_requests before).
Proof.
  intros now scenario status details s r before after.
  subst r before after. rewrite log_scenario_run. simpl.
  pose proof (is_failure_status_spec status) as Hs.
  destruct (is_failure_status status).
  - assert (status = "FAIL" \/ status = "ERROR") as Hst by (apply Hs; reflexivity).
    repeat split; try tauto; try lia.
    intros [-> | ->]; destruct Hst; discriminate.
  - assert (~ (status = "FAIL" \/ status = "ERROR")) as Hst
      by (intros H; apply Hs in H; discriminate).
    repeat split; try tauto; try lia.
Qed.

Lemma log_scenarios_counters_ok calls :
  forall s, counters_ok (stats (self s)) ->
            counters_ok (stats (self (log_scenarios calls s))).
Proof.
  unfold log_scenarios.
  induction calls as [| [[[now scenario] status] details] calls IH]; intros s Hs.
  - exact Hs.
  - simpl. apply IH. rewrite log_scenario_run. unfold counters_ok in *; simpl.
    destruct (is_failure_status status); lia.
Qed.

(** C4: starting from a freshly constructed [Statistics] (both counters
    zero), after every call of any sequence of [log_scenario] calls
    [0 <= failed_requests <= total_requests]. *)
Theorem failed_never_exceeds_total :
  forall (now : datetime) (g : rng) (calls : list log_call) (n : nat),
    let st := stats (self (log_scenarios (firstn n calls) (new_session now g))) in
    0 <= failed_requests st /\ failed_requests st <= total_requests st.
Proof.
  intros now g calls n st. subst st.
  apply (log_scenarios_counters_ok (firstn n calls) (new_session now g)).
  unfold counters_ok; simpl; lia.
Qed.

(** The property of the session statistics guards its own division. *)
Lemma failure_percentage_returns st :
  exists v, failure_percentage st = inr v.
Proof.
  unfold failure_percentage, Py.int_true_div.
  destruct (total_requests st =? 0); eauto.
Qed.

(** ** The random user *)

Lemma choices_run population k :
  population <> [] ->
  forall s, exists cs g,
    choices population k s = (inr cs, with_random s g) /\
    length cs = k /\ Forall (fun c => In c population) cs.
Proof.
  intros Hne. induction k as [| k IH]; intros s.
  - exists [], (random s). destruct s; simpl. repeat split; constructor.
  - simpl. unfold Py.bind, randbelow. simpl.
    set (i := (draws (random s) (used (random s)) mod length population)%nat).
    assert (i < length population)%nat as Hi.
    { apply Nat.mod_upper_bound. destruct population; simpl; congruence. }
    destruct (nth_error population i) as [c |] eqn:Hc.
    2:{ apply nth_error_None in Hc. lia. }
    match goal with |- context [choices population k ?s1] =>
      destruct (IH s1) as (cs & g & Heq & Hlen & Hall); rewrite Heq end.
    exists (c :: cs), g. simpl. repeat split.
    + congruence.
    + constructor; [eapply nth_error_In; eassumption | assumption].
Qed.

Lemma all_chars_join P (cs : list ascii) :
  Forall (fun c => P c = true) cs -> all_chars P (Py.join cs) = true.
Proof.
  intros H. unfold all_chars, Py.join.
  rewrite list_ascii_of_string_of_list_ascii.
  induction H as [| c cs Hc _ IH]; simpl; [reflexivity |].
  rewrite Hc, IH. reflexivity.
Qed.

Lemma length_join (cs : list ascii) : String.length (Py.join cs) = length cs.
Proof.
  unfold Py.join. induction cs; simpl; congruence.
Qed.

Lemma ascii_lowercase_lower c : In c ascii_lowercase -> is_lowercase c = true.
Proof.
  unfold ascii_lowercase; simpl.
  intros H; repeat (destruct H as [<- | H]; [reflexivity |]); destruct H.
Qed.

Lemma digits_decimal c : In c digits -> is_decimal_digit c = true.
Proof.
  unfold digits; simpl.
  intros H; repeat (destruct H as [<- | H]; [reflexivity |]); destruct H.
Qed.

(** What [generate_random_user] returns, and that it only moves the
    generator. *)
Lemma generate_random_user_run s :
  exists token phone_number g,
    generate_random_user s =
      (inr {| fullName := "Test User " +:+ token;
              userName := "testuser_" +:+ token;
              email := "test_" +:+ token +:+ "@example.com";
              password := "password_" +:+ token;
              phone := phone_number |},
       with_random s g) /\
    String.length token = 8%nat /\ all_chars is_lowercase token = true /\
    String.length phone_number = 10%nat /\
    all_chars is_decimal_digit phone_number = true.
Proof.
  unfold generate_random_user, generate_random_string, Py.bind.
  destruct (choices_run ascii_lowercase 8 ltac:(discriminate) s)
    as (cs & g1 & Hcs & Hlen & Hall).
  rewrite Hcs. unfold Py.ret at 1.
  destruct (choices_run digits 10 ltac:(discriminate) (with_random s g1))
    as (ds & g2 & Hds & Hdlen & Hdall).
  rewrite Hds. unfold Py.ret.
  exists (Py.join cs), (Py.join ds), g2. repeat split.
  - rewrite length_join; assumption.
  - apply all_chars_join. eapply List.Forall_impl; [| exact Hall].
    apply ascii_lowercase_lower.
  - rewrite length_join; assumption.
  - apply all_chars_join. eapply List.Forall_impl; [| exact Hdall].
    apply digits_decimal.
Qed.

(** C9: every user that [generate_random_user] produces is built around
    one 8-character lowercase string [s]: fullName is "Test User " + s,
    userName "testuser_" + s, email "test_" + s + "@example.com",
    password "password_" + s; and phone is exactly 10 decimal digits. *)
Theorem generate_random_user_shape :
  forall s : session,
    exists (u : user) (s' : session) (token : string),
      generate_random_user s = (inr u, s') /\
      String.length token = 8%nat /\
      all_chars is_lowercase token = true /\
      fullName u = "Test User " +:+ token /\
      userName u = "testuser_" +:+ token /\
      email u = "test_" +:+ token +:+ "@example.com" /\
      password u = "password_" +:+ token /\
      String.length (phone u) = 10%nat /\
      all_chars is_decimal_digit (phone u) = true.
Proof.
  intros s.
  destruct (generate_random_user_run s) as (token & ph & g & Heq & H1 & H2 & H3 & H4).
  eexists _, _, token. split; [exact Heq |]. simpl. auto 10.
Qed.

(** ** The register scenario *)

Lemma app_one_neq {A} (l : list A) (x : A) : (l ++ [x])%list <> l.
Proof.
  intros H. apply (f_equal (@length A)) in H.
  rewrite length_app in H. simpl in H. lia.
Qed.

Lemma eq_str_spec v text : Json.eq_str v text = true <-> v = JStr text.
Proof.
  destruct v; simpl; try (split; [discriminate | intros H; discriminate]).
  rewrite String.eqb_eq. split; congruence.
Qed.

Ltac trace_eq :=
  unfold error_exchange, exchange; rewrite <- ?app_assoc; reflexivity.

(** C6: the register scenario returns normally and appends the generated
    user to [registered_users] if and only if the [msg] field of the
    response body is the string "User Registered"; then the scenario is
    logged SUCCESS and the response marked success.  A body whose [msg]
    is anything else is logged FAIL with that message and reported as the
    failure; an exception while reading the body (it does not parse, it
    has no [msg]) is logged ERROR with the exception's text; in both of
    these cases [registered_users] is unchanged. *)
Theorem register_outcome :
  forall repr now server s,
    exists u g,
      generate_random_user s = (inr u, with_random s g) /\
      let r := server (register_request u) in
      let res := scenario_register_new_user repr now server s in
      let s' := snd res in
      fst res = inr tt /\
      (registered_users (self s') = (registered_users (self s) ++ [u])%list
       <-> msg_of r = inr (JStr "User Registered")) /\
      match msg_of r with
      | inr msg =>
          if Json.eq_str msg "User Registered" then
            registered_users (self s') = (registered_users (self s) ++ [u])%list /\
            trace s' = (trace s ++
              exchange (register_request u) now "Registration" "SUCCESS"
                ("User: " +:+ email u) Success)%list
          else
            registered_users (self s') = registered_users (self s) /\
            trace s' = (trace s ++
              exchange (register_request u) now "Registration" "FAIL"
                ("User: " +:+ email u +:+ ", Error: " +:+ str repr msg)
                (Failure msg))%list
      | inl e =>
          registered_users (self s') = registered_users (self s) /\
          trace s' = (trace s ++
            error_exchange (register_request u) now "Registration" e)%list
      end.
Proof.
  intros repr now server s.
  destruct (generate_random_user_run s) as (token & ph & g & Heq & _).
  eexists _, g. split; [exact Heq |].
  set (u := {| fullName := _ |}) in *.
  intros r res s'. subst s'.
  assert (Hres : res = scenario_register_new_user repr now server s) by reflexivity.
  clearbody res.
  unfold scenario_register_new_user, Py.bind at 1 in Hres. rewrite Heq in Hres.
  unfold Py.bind at 1, client_post, Py.bind at 1, emit, Py.modify, Py.ret in Hres.
  fold (register_request u) in Hres. fold r in Hres.
  unfold Py.bind at 1, Py.try_except, response_msg, Py.bind, Py.lift in Hres.
  unfold msg_of.
  destruct (body r) as [e | b].
  - rewrite log_scenario_run in Hres. simpl in Hres. subst res. simpl.
    repeat split; try trace_eq.
    + intros H; exfalso; symmetry in H; revert H; apply app_one_neq.
    + discriminate.
  - destruct (Json.getitem b "msg") as [e | msg] eqn:Hmsg.
    + rewrite log_scenario_run in Hres. simpl in Hres. subst res. simpl.
      repeat split; try trace_eq.
      * intros H; exfalso; symmetry in H; revert H; apply app_one_neq.
      * discriminate.
    + destruct (Json.eq_str msg "User Registered") eqn:Heqs.
      * rewrite log_scenario_run in Hres. simpl in Hres. subst res. simpl.
        apply eq_str_spec in Heqs. subst msg. repeat split; trace_eq.
      * rewrite log_scenario_run in Hres. simpl in Hres. subst res. simpl.
        repeat split; try trace_eq.
        -- intros H; exfalso; symmetry in H; revert H; apply app_one_neq.
        -- intros H. injection H as ->. simpl in Heqs. discriminate.
Qed.

(** ** The login scenarios *)

Lemma login_with_email_skip repr now server s :
  registered_users (self s) = [] ->
  scenario_login_with_email repr now server s =
  log_scenario now "Login with Email" "SKIP" "No registered users available" s.
Proof.
  intros H. unfold scenario_login_with_email, Py.bind, Py.gets. rewrite H. reflexivity.
Qed.

Lemma login_with_username_skip repr now server s :
  registered_users (self s) = [] ->
  scenario_login_with_username repr now server s =
  log_scenario now "Login with Username" "SKIP" "No registered users available" s.
Proof.
  intros H. unfold scenario_login_with_username, Py.bind, Py.gets. rewrite H. reflexivity.
Qed.

(** C5, as the code has it: with [registered_users] empty both login
    scenarios short-circuit; each returns normally having written the one
    SKIP log line and nothing else (no request is sent), and through that
    log call [total_requests] goes up by exactly one while
    [failed_requests], [registered_users] and the random generator stay
    as they were. *)
Theorem login_skips_without_registered_users :
  forall repr now server s,
    registered_users (self s) = [] ->
    let skipped scenario (res : (Py.exception + unit) * session) :=
      fst res = inr tt /\
      trace (snd res) =
        (trace s ++ [LogInfo (scenario_message now scenario "SKIP"
                                "No registered users available")])%list /\
      total_requests (stats (self (snd res))) = total_requests (stats (self s)) + 1 /\
      failed_requests (stats (self (snd res))) = failed_requests (stats (self s)) /\
      registered_users (self (snd res)) = [] /\
      random (snd res) = random s in
    skipped "Login with Email" (scenario_login_with_email repr now server s) /\
    skipped "Login with Username" (scenario_login_with_username repr now server s).
Proof.
  intros repr now server s Hempty skipped. subst skipped. cbv beta.
  rewrite login_with_email_skip, login_with_username_skip by assumption.
  rewrite !log_scenario_run. simpl. rewrite Hempty.
  repeat split; lia.
Qed.

Lemma login_skips_without_registered_users_witness :
  registered_users (self (new_session sample_now sample_rng)) = [] /\
  trace (snd (scenario_login_with_email sample_repr sample_now (answering JNull)
                (new_session sample_now sample_rng))) =
  [LogInfo "[2024-03-09 14:05:00] Scenario: Login with Email | Status: SKIP | Details: No registered users available"].
Proof.
  split; [reflexivity |].
  exact (proj1 (proj2 (proj1
    (login_skips_without_registered_users sample_repr sample_now (answering JNull)
       (new_session sample_now sample_rng) eq_refl)))).
Defined.

(** C5, as the specification states it, fails: a skipped login does
    increment [total_requests].  On a fresh session, whose
    [registered_users] is empty and whose counter is 0, either login
    scenario leaves the counter at 1. *)
Lemma login_skip_counts_a_request :
  let s := new_session sample_now sample_rng in
  let after_email :=
    snd (scenario_login_with_email sample_repr sample_now (answering JNull) s) in
  let after_username :=
    snd (scenario_login_with_username sample_repr sample_now (answering JNull) s) in
  registered_users (self s) = [] /\
  total_requests (stats (self s)) = 0 /\
  total_requests (stats (self after_email)) = 1 /\
  total_requests (stats (self after_username)) = 1 /\
  total_requests (stats (self after_email)) <> total_requests (stats (self s)) /\
  total_requests (stats (self after_username)) <> total_requests (stats (self s)).
Proof.
  cbv zeta. repeat split; try reflexivity; vm_compute; discriminate.
Qed.

Lemma choice_run (seq : list user) s :
  seq <> [] ->
  exists u g, choice seq s = (inr u, with_random s g) /\ In u seq.
Proof.
  intros Hne. unfold choice. destruct seq as [| u0 us]; [congruence |].
  unfold Py.bind, randbelow, next_below. cbv iota beta.
  set (i := (draws (random s) (used (random s)) mod length (u0 :: us))%nat).
  assert (i < length (u0 :: us))%nat as Hi
    by (apply Nat.mod_upper_bound; simpl; congruence).
  destruct (nth_error (u0 :: us) i) as [u |] eqn:Hu.
  2:{ apply nth_error_None in Hu. lia. }
  eexists u, _. split; [reflexivity |]. eapply nth_error_In; eassumption.
Qed.

Ltac finish_login Hres res Hin :=
  try rewrite log_scenario_run in Hres; simpl in Hres; subst res;
  cbn [fst snd trace]; rewrite <- ?app_assoc;
  eexists; split; [exact Hin |]; split; [reflexivity |];
  split;
  [ reflexivity
  | first [ reflexivity | eexists (Py.TypeError _); reflexivity ] ].

Lemma login_with_email_run repr now server s :
  registered_users (self s) <> [] ->
  exists u added,
    In u (registered_users (self s)) /\
    fst (scenario_login_with_email repr now server s) = inr tt /\
    trace (snd (scenario_login_with_email repr now server s)) = (trace s ++ added)%list /\
    login_outcome repr now "Login with Email" (email u)
      (login_with_email_request u) (server (login_with_email_request u)) added.
Proof.
  intros Hne.
  destruct (choice_run (registered_users (self s)) s Hne) as (u & g & Hch & Hin).
  exists u.
  remember (scenario_login_with_email repr now server s) as res eqn:Hres.
  unfold scenario_login_with_email, Py.bind at 1, Py.gets in Hres.
  destruct (registered_users (self s)) as [| u0 us] eqn:Hus; [congruence |].
  unfold Py.bind at 1 in Hres. rewrite Hch in Hres.
  unfold Py.bind at 1, client_post, Py.bind at 1, emit, Py.modify, Py.ret in Hres.
  fold (login_with_email_request u) in Hres.
  unfold login_outcome.
  set (r := server (login_with_email_request u)) in *.
  unfold Py.try_except, response_msg_or, Py.bind, Py.lift in Hres.
  destruct (body r) as [e | b]; [finish_login Hres res Hin |].
  destruct b as [| | | | text | items | members]; simpl in Hres |- *;
    try finish_login Hres res Hin.
  - destruct (Py.str_contains "token" text); finish_login Hres res Hin.
  - destruct (existsb (fun x => Json.eq_str x "token") items);
      finish_login Hres res Hin.
  - destruct (Json.lookup "token" members); finish_login Hres res Hin.
Qed.

Lemma login_with_username_run repr now server s :
  registered_users (self s) <> [] ->
  exists u added,
    In u (registered_users (self s)) /\
    fst (scenario_login_with_username repr now server s) = inr tt /\
    trace (snd (scenario_login_with_username repr now server s)) = (trace s ++ added)%list /\
    login_outcome repr now "Login with Username" (userName u)
      (login_with_username_request u) (server (login_with_username_request u)) added.
Proof.
  intros Hne.
  destruct (choice_run (registered_users (self s)) s Hne) as (u & g & Hch & Hin).
  exists u.
  remember (scenario_login_with_username repr now server s) as res eqn:Hres.
  unfold scenario_login_with_username, Py.bind at 1, Py.gets in Hres.
  destruct (registered_users (self s)) as [| u0 us] eqn:Hus; [congruence |].
  unfold Py.bind at 1 in Hres. rewrite Hch in Hres.
  unfold Py.bind at 1, client_post, Py.bind at 1, emit, Py.modify, Py.ret in Hres.
  fold (login_with_username_request u) in Hres.
  unfold login_outcome.
  set (r := server (login_with_username_request u)) in *.
  unfold Py.try_except, response_msg_or, Py.bind, Py.lift in Hres.
  destruct (body r) as [e | b]; [finish_login Hres res Hin |].
  destruct b as [| | | | text | items | members]; simpl in Hres |- *;
    try finish_login Hres res Hin.
  - destruct (Py.str_contains "token" text); finish_login Hres res Hin.
  - destruct (existsb (fun x => Json.eq_str x "token") items);
      finish_login Hres res Hin.
  - destruct (Json.lookup "token" members); finish_login Hres res Hin.
Qed.

(** C7, as the code has it: with a non-empty [registered_users] each login
    scenario returns normally after sending the credentials of one
    registered user (the email variant with userName "" and the user's
    email, the username variant with the user's userName and email "").
    What it then records is [login_outcome]: when the body parses to a
    JSON object the outcome is SUCCESS if and only if the object has a
    "token" key, and otherwise FAIL, the failure handed to the client
    being the object's "msg" value, or "Login failed" when it has none; a
    body that does not parse is ERROR; a parsed body that is not an
    object is SUCCESS when Python's [in] finds "token" in it and ERROR
    otherwise. *)
Theorem login_outcome_by_body :
  forall repr now server s,
    registered_users (self s) <> [] ->
    (exists u added,
       In u (registered_users (self s)) /\
       fst (scenario_login_with_email repr now server s) = inr tt /\
       trace (snd (scenario_login_with_email repr now server s))
         = (trace s ++ added)%list /\
       login_outcome repr now "Login with Email" (email u)
         (login_with_email_request u) (server (login_with_email_request u)) added) /\
    (exists u added,
       In u (registered_users (self s)) /\
       fst (scenario_login_with_username repr now server s) = inr tt /\
       trace (snd (scenario_login_with_username repr now server s))
         = (trace s ++ added)%list /\
       login_outcome repr now "Login with Username" (userName u)
         (login_with_username_request u) (server (login_with_username_request u)) added).
Proof.
  intros repr now server s Hne. split.
  - apply login_with_email_run; assumption.
  - apply login_with_username_run; assumption.
Qed.

Lemma login_outcome_by_body_witness :
  registered_users (self sample_session) <> [] /\
  exists u added,
    In u (registered_users (self sample_session)) /\
    fst (scenario_login_with_email sample_repr sample_now
           (answering (JObj [("token", JStr "t0k3n")])) sample_session) = inr tt /\
    trace (snd (scenario_login_with_email sample_repr sample_now
           (answering (JObj [("token", JStr "t0k3n")])) sample_session))
      = (trace sample_session ++ added)%list /\
    login_outcome sample_repr sample_now "Login with Email" (email u)
      (login_with_email_request u)
      (answering (JObj [("token", JStr "t0k3n")]) (login_with_email_request u)) added.
Proof.
  assert (registered_users (self sample_session) <> []) as Hne by discriminate.
  split; [exact Hne |].
  exact (proj1 (login_outcome_by_body sample_repr sample_now
                  (answering (JObj [("token", JStr "t0k3n")])) sample_session Hne)).
Defined.

(** C7, as the specification states it, fails on bodies that parse but
    are not objects.  The JSON string "invalid token" has no "token"
    field, yet the login is recorded as SUCCESS; the empty JSON array
    parses and has no "token", yet the login is an ERROR and the failure
    handed to the client is not "Login failed". *)
Lemma login_success_without_token_field :
  let run b :=
    trace (snd (scenario_login_with_email sample_repr sample_now (answering b)
                  sample_session)) in
  has_field "token" (inr (JStr "invalid token")) = false /\
  run (JStr "invalid token") =
    exchange (login_with_email_request sample_user) sample_now
      "Login with Email" "SUCCESS" "User: test_abcdefgh@example.com" Success /\
  has_field "token" (inr (JArr [])) = false /\
  run (JArr []) =
    exchange (login_with_email_request sample_user) sample_now
      "Login with Email" "ERROR" "'list' object has no attribute 'get'"
      (Failure (JStr "Invalid response: 'list' object has no attribute 'get'")) /\
  run (JArr []) <>
    exchange (login_with_email_request sample_user) sample_now
      "Login with Email" "FAIL" "User: test_abcdefgh@example.com, Error: Unknown error"
      (Failure (JStr "Login failed")).
Proof.
  cbv zeta. repeat split; try reflexivity. vm_compute. discriminate.
Qed.

(** ** The session's [max_response_time] *)

Lemma nonneg_fle_refl x : nonneg x -> Py.fle x x = true.
Proof.
  unfold nonneg, Py.fle, SFleb.
  destruct x as [sx | sx | | sx m e]; simpl; try discriminate; try reflexivity.
  - destruct sx; [discriminate | reflexivity].
  - destruct sx; [discriminate |]. intros _.
    rewrite Z.compare_refl, Pos.compare_cont_refl. reflexivity.
Qed.

Lemma flt_nonneg a b : nonneg a -> Py.flt a b = true -> nonneg b.
Proof.
  unfold nonneg, Py.fle, Py.flt, SFleb, SFltb.
  destruct a as [sa | sa | | sa ma ea], b as [sb | sb | | sb mb eb]; simpl;
    try discriminate; try reflexivity;
    try (destruct sa; discriminate);
    try (destruct sa, sb; simpl; discriminate || reflexivity || (intros; reflexivity)).
  all: destruct sb; simpl; try reflexivity; try discriminate.
  all: destruct sa; simpl; discriminate.
Qed.

Lemma flt_fle a b : Py.flt a b = true -> Py.fle a b = true.
Proof.
  unfold Py.flt, Py.fle, SFltb, SFleb.
  destruct (SFcompare a b) as [[] |]; congruence.
Qed.

Lemma max_nonneg a b : nonneg a -> nonneg (Py.max a b).
Proof.
  intros Ha. unfold Py.max. destruct (Py.flt a b) eqn:Hlt; [| exact Ha].
  eapply flt_nonneg; eassumption.
Qed.

Lemma max_ge a b : nonneg a -> Py.fle a (Py.max a b) = true.
Proof.
  intros Ha. unfold Py.max. destruct (Py.flt a b) eqn:Hlt.
  - apply flt_fle; assumption.
  - apply nonneg_fle_refl; assumption.
Qed.

Lemma keeps_ret {A} (a : A) : keeps_max (Py.ret a).
Proof. intros s. reflexivity. Qed.

Lemma keeps_raise {A} e : keeps_max (@Py.raise session A e).
Proof. intros s. reflexivity. Qed.

Lemma keeps_lift {A} (r : Py.exception + A) : keeps_max (Py.lift r).
Proof. intros s. reflexivity. Qed.

Lemma keeps_gets {A} (f : session -> A) : keeps_max (Py.gets f).
Proof. intros s. reflexivity. Qed.

Lemma keeps_bind {A B} (m : Py.M session A) (k : A -> Py.M session B) :
  keeps_max m -> (forall a, keeps_max (k a)) -> keeps_max (Py.bind m k).
Proof.
  intros Hm Hk s. unfold Py.bind. specialize (Hm s).
  destruct (m s) as [[e | a] s1]; simpl in *; [assumption |].
  rewrite Hk. assumption.
Qed.

Lemma keeps_try_except {A} (m : Py.M session A) h :
  keeps_max m -> (forall e, keeps_max (h e)) -> keeps_max (Py.try_except m h).
Proof.
  intros Hm Hh s. unfold Py.try_except. specialize (Hm s).
  destruct (m s) as [[e | a] s1]; simpl in *; [| assumption].
  rewrite Hh. assumption.
Qed.

Lemma keeps_emit e : keeps_max (emit e).
Proof. intros s. reflexivity. Qed.

Lemma keeps_randbelow n : keeps_max (randbelow n).
Proof. intros s. reflexivity. Qed.

Lemma keeps_registered_users_append u : keeps_max (registered_users_append u).
Proof. intros s. reflexivity. Qed.

Lemma keeps_log_scenario now scenario status details :
  keeps_max (log_scenario now scenario status details).
Proof. intros s. rewrite log_scenario_run. reflexivity. Qed.

Lemma keeps_choices population k : keeps_max (choices population k).
Proof.
  induction k as [| k IH]; simpl; [apply keeps_ret |].
  apply keeps_bind; [apply keeps_randbelow |]. intros i.
  destruct (nth_error population i); [| apply keeps_raise].
  apply keeps_bind; [exact IH |]. intros; apply keeps_ret.
Qed.

Lemma keeps_choice seq : keeps_max (choice seq).
Proof.
  unfold choice. destruct seq; [apply keeps_raise |].
  apply keeps_bind; [apply keeps_randbelow |]. intros i.
  destruct (nth_error _ i); [apply keeps_ret | apply keeps_raise].
Qed.

Lemma keeps_generate_random_user : keeps_max generate_random_user.
Proof.
  unfold generate_random_user, generate_random_string.
  repeat first [ apply keeps_choices | apply keeps_ret | apply keeps_bind; [| intros] ].
Qed.

Lemma keeps_client_post server req : keeps_max (client_post server req).
Proof.
  unfold client_post. apply keeps_bind; [apply keeps_emit |].
  intros; apply keeps_ret.
Qed.

Lemma keeps_response_msg r : keeps_max (response_msg r).
Proof.
  unfold response_msg. apply keeps_bind; [apply keeps_lift |].
  intros; apply keeps_lift.
Qed.

Lemma keeps_response_msg_or r d : keeps_max (response_msg_or r d).
Proof.
  unfold response_msg_or. apply keeps_bind; [apply keeps_lift |].
  intros; apply keeps_lift.
Qed.

Ltac keeps_step :=
  first
    [ apply keeps_ret | apply keeps_raise | apply keeps_lift | apply keeps_gets
    | apply keeps_emit | apply keeps_log_scenario | apply keeps_choice
    | apply keeps_client_post | apply keeps_response_msg
    | apply keeps_response_msg_or | apply keeps_registered_users_append
    | apply keeps_generate_random_user
    | apply keeps_bind; [| intros ]
    | apply keeps_try_except; [| intros ]
    | match goal with
      | |- keeps_max (if ?b then _ else _) => destruct b
      | |- keeps_max (match ?x with _ => _ end) => destruct x
      end ].

Lemma keeps_scenario_login_with_email repr now server :
  keeps_max (scenario_login_with_email repr now server).
Proof. unfold scenario_login_with_email. repeat keeps_step. Qed.

Lemma keeps_scenario_login_with_username repr now server :
  keeps_max (scenario_login_with_username repr now server).
Proof. unfold scenario_login_with_username. repeat keeps_step. Qed.

Lemma register_tracks_latency repr now server s :
  exists u g,
    generate_random_user s = (inr u, with_random s g) /\
    max_seen (snd (scenario_register_new_user repr now server s)) =
      Py.max (max_seen s) (latency_ms (server (register_request u))).
Proof.
  destruct (generate_random_user_run s) as (token & ph & g & Heq & _).
  eexists _, g. split; [exact Heq |].
  set (u := {| fullName := _ |}) in *.
  remember (scenario_register_new_user repr now server s) as res eqn:Hres.
  unfold scenario_register_new_user, Py.bind at 1 in Hres. rewrite Heq in Hres.
  unfold Py.bind at 1, client_post, Py.bind at 1, emit, Py.modify, Py.ret in Hres.
  fold (register_request u) in Hres.
  set (r := server (register_request u)) in *.
  unfold Py.bind at 1, Py.try_except, response_msg, Py.bind, Py.lift in Hres.
  unfold latency_ms.
  destruct (body r) as [e | b].
  - rewrite log_scenario_run in Hres. simpl in Hres. subst res. reflexivity.
  - destruct (Json.getitem b "msg") as [e | msg].
    + rewrite log_scenario_run in Hres. simpl in Hres. subst res. reflexivity.
    + destruct (Json.eq_str msg "User Registered");
        rewrite log_scenario_run in Hres; simpl in Hres; subst res; reflexivity.
Qed.

Lemma run_task_max repr t now server s :
  nonneg (max_seen s) ->
  let s' := snd (run_task repr t now server s) in
  match t with
  | Register =>
      exists u g,
        generate_random_user s = (inr u, with_random s g) /\
        max_seen s' = Py.max (max_seen s) (latency_ms (server (register_request u)))
  | LoginWithEmail | LoginWithUsername => max_seen s' = max_seen s
  end /\
  Py.fle (max_seen s) (max_seen s') = true /\ nonneg (max_seen s').
Proof.
  intros Hs s'. subst s'. destruct t; simpl.
  - destruct (register_tracks_latency repr now server s) as (u & g & Hu & Hmax).
    rewrite Hmax. split; [exists u, g; split; [exact Hu | reflexivity] |].
    split; [apply max_ge | apply max_nonneg]; assumption.
  - rewrite keeps_scenario_login_with_email.
    split; [reflexivity |]. split; [apply nonneg_fle_refl |]; assumption.
  - rewrite keeps_scenario_login_with_username.
    split; [reflexivity |]. split; [apply nonneg_fle_refl |]; assumption.
Qed.

Lemma run_schedule_nonneg repr sched :
  forall s, nonneg (max_seen s) -> nonneg (max_seen (run_schedule repr sched s)).
Proof.
  unfold run_schedule.
  induction sched as [| [[t now] server] sched IH]; intros s Hs; [exact Hs |].
  simpl. apply IH. apply (run_task_max repr t now server s Hs).
Qed.

(** C10: over a session's life, from its creation through any sequence of
    scheduled tasks, [max_response_time] is touched by the register
    scenario only, where it becomes [max(old, latency)] for the latency
    observed on that request; both login scenarios leave it unchanged on
    every path.  So each task leaves it at least as large as it was, and
    it is never below zero. *)
Theorem max_response_time_monotone :
  forall repr now0 g (sched : schedule) t now server,
    let s := run_schedule repr sched (new_session now0 g) in
    let s' := snd (run_task repr t now server s) in
    match t with
    | Register =>
        exists u g',
          generate_random_user s = (inr u, with_random s g') /\
          max_response_time (stats (self s')) =
            Py.max (max_response_time (stats (self s)))
                   (latency_ms (server (register_request u)))
    | LoginWithEmail | LoginWithUsername =>
        max_response_time (stats (self s')) = max_response_time (stats (self s))
    end /\
    Py.fle (max_response_time (stats (self s)))
           (max_response_time (stats (self s'))) = true /\
    Py.fle (S754_zero false) (max_response_time (stats (self s))) = true /\
    Py.fle (S754_zero false) (max_response_time (stats (self s'))) = true.
Proof.
  intros repr now0 g sched t now server s s'.
  assert (nonneg (max_seen s)) as Hs.
  { subst s. apply run_schedule_nonneg. reflexivity. }
  destruct (run_task_max repr t now server s Hs) as (Hcase & Hle & Hnn).
  fold s' in Hcase, Hle, Hnn.
  split; [| split; [exact Hle | split; [exact Hs | exact Hnn]]].
  destruct t; exact Hcase.
Qed.

(** ** The shutdown handler *)

Lemma getattr_total_requests o :
  getattr o "total_requests" =
  match extra o !! "total_requests" with
  | Some v => inr v
  | None => inl (Py.AttributeError
                   "'StatsEntry' object has no attribute 'total_requests'")
  end.
Proof. reflexivity. Qed.

Lemma getattr_failed_requests o :
  getattr o "failed_requests" =
  match extra o !! "failed_requests" with
  | Some v => inr v
  | None => inl (Py.AttributeError
                   "'StatsEntry' object has no attribute 'failed_requests'")
  end.
Proof. reflexivity. Qed.

Lemma report_paths_differ : json_report_path <> junit_report_path.
Proof. discriminate. Qed.

(** With no request in the aggregate the handler logs the error, sets the
    exit code and does nothing else. *)
Lemma on_test_end_no_requests repr elapsed p :
  num_requests (total p) = 0 ->
  on_test_end repr elapsed p =
  (inr tt,
   {| total := total p; process_exit_code := Some 1;
      directories := directories p; files := files p;
      log := log p ++ [LogError "No requests were made during the test!"] |}).
Proof.
  intros H. unfold on_test_end, Py.bind, Py.gets. rewrite H. reflexivity.
Qed.

Lemma on_test_end_not_zero_division repr elapsed p :
  fst (on_test_end repr elapsed p) <> inl Py.ZeroDivisionError.
Proof.
  unfold on_test_end, Py.bind at 1, Py.gets.
  destruct (num_requests (total p) =? 0) eqn:Hz; [discriminate |].
  unfold Py.bind at 1, Py.lift, Py.int_true_div. rewrite Hz.
  unfold Py.bind at 1, Py.lift.
  destruct elapsed as [test_duration | error]; [| discriminate].
  unfold str_elapsed.
  unfold Py.bind at 1, mkdir, Py.modify.
  unfold Py.bind at 1, write_file, Py.modify.
  unfold Py.bind at 1, generate_junit_report.
  unfold Py.bind at 1, mkdir, Py.modify.
  unfold Py.bind at 1, Py.lift.
  rewrite getattr_total_requests.
  destruct (extra (total p) !! "total_requests"); [| discriminate].
  unfold Py.bind at 1. rewrite getattr_failed_requests.
  destruct (extra (total p) !! "failed_requests"); [| discriminate].
  unfold write_file, Py.modify.
  destruct (failed_verdict _ _ _); discriminate.
Qed.

Ltac enter_on_test_end Hnz :=
  unfold on_test_end, Py.bind at 1, Py.gets;
  rewrite Hnz;
  unfold Py.bind at 1, Py.lift, Py.int_true_div; rewrite Hnz;
  unfold Py.bind at 1, Py.lift, str_elapsed;
  unfold Py.bind at 1, mkdir, Py.modify;
  unfold Py.bind at 1, write_file, Py.modify;
  unfold Py.bind at 1, generate_junit_report;
  unfold Py.bind at 1, mkdir, Py.modify;
  unfold Py.bind at 1, Py.lift;
  rewrite getattr_total_requests.

(** The aggregate lacks the attribute the JUnit report asks for first:
    the handler raises after the JSON report is written. *)
Lemma on_test_end_missing_attribute repr test_duration p :
  num_requests (total p) <> 0 ->
  extra (total p) !! "total_requests" = None ->
  on_test_end repr (Elapsed test_duration) p =
  (inl (Py.AttributeError "'StatsEntry' object has no attribute 'total_requests'"),
   {| total := total p; process_exit_code := process_exit_code p;
      directories :=
        {[ TestConfig.REPORT_DIR ]} ∪ ({[ TestConfig.REPORT_DIR ]} ∪ directories p);
      files := <[ json_report_path := JsonDump (json_report (total p) test_duration) 2 ]>
                 (files p);
      log := log p |}).
Proof.
  intros Hnz Hmiss. apply Z.eqb_neq in Hnz.
  enter_on_test_end Hnz. rewrite Hmiss. reflexivity.
Qed.

(** The elapsed time cannot be computed: the handler raises before it
    writes anything. *)
Lemma on_test_end_unsupported repr error p :
  num_requests (total p) <> 0 ->
  on_test_end repr (Unsupported error) p = (inl (Py.TypeError error), p).
Proof.
  intros Hnz. apply Z.eqb_neq in Hnz.
  unfold on_test_end, Py.bind at 1, Py.gets. rewrite Hnz.
  unfold Py.bind at 1, Py.lift, Py.int_true_div. rewrite Hnz.
  reflexivity.
Qed.

Lemma on_test_end_missing_second_attribute repr test_duration p tests :
  num_requests (total p) <> 0 ->
  extra (total p) !! "total_requests" = Some tests ->
  extra (total p) !! "failed_requests" = None ->
  on_test_end repr (Elapsed test_duration) p =
  (inl (Py.AttributeError "'StatsEntry' object has no attribute 'failed_requests'"),
   {| total := total p; process_exit_code := process_exit_code p;
      directories :=
        {[ TestConfig.REPORT_DIR ]} ∪ ({[ TestConfig.REPORT_DIR ]} ∪ directories p);
      files := <[ json_report_path := JsonDump (json_report (total p) test_duration) 2 ]>
                 (files p);
      log := log p |}).
Proof.
  intros Hnz Ht Hf. apply Z.eqb_neq in Hnz.
  enter_on_test_end Hnz. rewrite Ht.
  unfold Py.bind at 1. rewrite getattr_failed_requests, Hf. reflexivity.
Qed.

(** The aggregate carries both attributes the JUnit report asks for: both
    reports are written and the exit code follows the verdict. *)
Lemma on_test_end_with_attributes repr test_duration p tests failures :
  num_requests (total p) <> 0 ->
  extra (total p) !! "total_requests" = Some tests ->
  extra (total p) !! "failed_requests" = Some failures ->
  let failed :=
    failed_verdict (failure_percent (total p)) (avg_response_time (total p))
                   (num_requests (total p)) in
  on_test_end repr (Elapsed test_duration) p =
  (inr tt,
   {| total := total p;
      process_exit_code := Some (if failed then 1 else 0);
      directories :=
        {[ TestConfig.REPORT_DIR ]} ∪ ({[ TestConfig.REPORT_DIR ]} ∪ directories p);
      files :=
        <[ junit_report_path :=
             Text (junit_template (str repr tests) (str repr failures)) ]>
          (<[ json_report_path := JsonDump (json_report (total p) test_duration) 2 ]>
             (files p));
      log := log p ++
        [if failed then LogError "Load test failed to meet requirements!"
         else LogInfo "Load test completed successfully!"] |}).
Proof.
  intros Hnz Ht Hf failed. apply Z.eqb_neq in Hnz.
  enter_on_test_end Hnz. rewrite Ht.
  unfold Py.bind at 1. rewrite getattr_failed_requests, Hf.
  unfold Py.bind at 1, write_file, Py.modify.
  fold (failure_percent (total p)). fold failed.
  destruct failed; reflexivity.
Qed.

(** C2: when the aggregate's request count is zero, [on_test_end] sets
    the exit code to 1 and returns at once: it writes no report file,
    creates no directory and only adds the error line to the log.  The
    division [num_failures / num_requests] is therefore never run with a
    zero divisor: on no aggregate does the handler raise
    ZeroDivisionError. *)
Theorem on_test_end_zero_requests :
  forall repr elapsed p,
    num_requests (total p) = 0 ->
    let r := on_test_end repr elapsed p in
    fst r = inr tt /\
    process_exit_code (snd r) = Some 1 /\
    files (snd r) = files p /\
    directories (snd r) = directories p /\
    log (snd r) = (log p ++ [LogError "No requests were made during the test!"])%list /\
    forall elapsed' q,
      fst (on_test_end repr elapsed' q) <> inl Py.ZeroDivisionError.
Proof.
  intros repr elapsed p Hzero r. subst r.
  rewrite on_test_end_no_requests by assumption. simpl.
  repeat split. intros d q. apply on_test_end_not_zero_division.
Qed.

Lemma on_test_end_zero_requests_witness :
  num_requests (total (sample_process 0 0 (S754_zero false))) = 0 /\
  process_exit_code
    (snd (on_test_end sample_repr (Elapsed "0:00:10") (sample_process 0 0 (S754_zero false))))
  = Some 1.
Proof.
  split; [reflexivity |].
  exact (proj1 (proj2
    (on_test_end_zero_requests sample_repr (Elapsed "0:00:10")
       (sample_process 0 0 (S754_zero false)) eq_refl))).
Defined.

(** C1 is what the handler is written to do, and it does so when the
    JUnit step completes ([on_test_end_with_attributes]).  But
    [generate_junit_report] asks the scheduler's aggregate for
    [total_requests] and [failed_requests], the attribute names of the
    script's own [Statistics], where the handler itself reads
    [num_requests] and [num_failures].  On an aggregate without a
    [total_requests] attribute the handler raises before it reaches the
    verdict, and the exit code stays as it was, whatever the verdict
    would have been. *)
Theorem on_test_end_exit_code_unset :
  forall repr elapsed p,
    num_requests (total p) <> 0 ->
    extra (total p) !! "total_requests" = None ->
    let r := on_test_end repr elapsed p in
    (exists e, fst r = inl e) /\
    (forall test_duration,
       elapsed = Elapsed test_duration ->
       fst r = inl (Py.AttributeError
                      "'StatsEntry' object has no attribute 'total_requests'")) /\
    process_exit_code (snd r) = process_exit_code p /\
    log (snd r) = log p.
Proof.
  intros repr elapsed p Hnz Hmiss r. subst r.
  destruct elapsed as [test_duration | error].
  - rewrite on_test_end_missing_attribute by assumption.
    repeat split; eauto.
  - rewrite on_test_end_unsupported by assumption.
    repeat split; eauto. intros d Hd. discriminate.
Qed.

Lemma on_test_end_exit_code_unset_witness :
  let p := sample_process 100 5 (Py.float_of_int 500) in
  failed_verdict (failure_percent (total p)) (avg_response_time (total p))
                 (num_requests (total p)) = true /\
  process_exit_code (snd (on_test_end sample_repr (Elapsed "0:00:10") p)) = None.
Proof.
  split; [reflexivity |].
  exact (proj1 (proj2 (proj2
    (on_test_end_exit_code_unset sample_repr (Elapsed "0:00:10")
       (sample_process 100 5 (Py.float_of_int 500))
       ltac:(discriminate) eq_refl)))).
Defined.

(** C8: the JSON report always carries [num_requests] and [num_failures]
    of the aggregate.  The JUnit document is built from two other
    attributes of the same object, [total_requests] and
    [failed_requests]: when the aggregate has them, [tests] and
    [failures] show those values, whatever the counters in the JSON
    report are; when it lacks one, the handler raises and the JUnit file
    is not written at all. *)
Theorem junit_report_reads_other_attributes :
  forall repr test_duration p,
    num_requests (total p) <> 0 ->
    let r := on_test_end repr (Elapsed test_duration) p in
    files (snd r) !! json_report_path
      = Some (JsonDump (json_report (total p) test_duration) 2) /\
    match extra (total p) !! "total_requests",
          extra (total p) !! "failed_requests" with
    | Some tests, Some failures =>
        fst r = inr tt /\
        files (snd r) !! junit_report_path
          = Some (Text (junit_template (str repr tests) (str repr failures)))
    | _, _ =>
        (exists text, fst r = inl (Py.AttributeError text)) /\
        files (snd r) !! junit_report_path = files p !! junit_report_path
    end.
Proof.
  intros repr test_duration p Hnz r. subst r.
  destruct (extra (total p) !! "total_requests") as [tests |] eqn:Ht.
  - destruct (extra (total p) !! "failed_requests") as [failures |] eqn:Hf.
    + rewrite (on_test_end_with_attributes repr test_duration p tests failures)
        by assumption.
      cbn [fst snd files].
      rewrite lookup_insert_ne by (symmetry; apply report_paths_differ).
      rewrite !lookup_insert_eq. auto.
    + rewrite (on_test_end_missing_second_attribute repr test_duration p tests)
        by assumption.
      cbn [fst snd files]. rewrite lookup_insert_eq.
      rewrite lookup_insert_ne by apply report_paths_differ.
      split; [reflexivity |]. split; [eexists; reflexivity | reflexivity].
  - rewrite on_test_end_missing_attribute by assumption. cbn [fst snd files].
    rewrite lookup_insert_eq.
    rewrite lookup_insert_ne by apply report_paths_differ.
    split; [reflexivity |]. split; [eexists; reflexivity | reflexivity].
Qed.

Lemma junit_report_reads_other_attributes_witness :
  let p := sample_process 100 5 (Py.float_of_int 500) in
  num_requests (total p) <> 0 /\
  files (snd (on_test_end sample_repr (Elapsed "0:00:10") p)) !! junit_report_path = None.
Proof.
  assert (num_requests (total (sample_process 100 5 (Py.float_of_int 500))) <> 0)
    as Hnz by discriminate.
  split; [exact Hnz |].
  exact (proj2 (proj2
    (junit_report_reads_other_attributes sample_repr "0:00:10"
       (sample_process 100 5 (Py.float_of_int 500)) Hnz))).
Defined.

Lemma str_contains_append sub a b :
  Py.str_contains sub b = true -> Py.str_contains sub (a +:+ b) = true.
Proof.
  intros H. induction a as [| c a IH]; simpl; [exact H |].
  rewrite IH. apply orb_true_r.
Qed.

(** The test case of the JUnit document carries a [<failure>] element
    whatever the two counts are. *)
Lemma junit_template_has_failure tests failures :
  Py.str_contains "<failure message=" (junit_template tests failures) = true.
Proof.
  unfold junit_template.
  repeat first [ reflexivity | apply str_contains_append ].
Qed.

(** ** The generators and the random numbers they take *)

Lemma choices_generator population k :
  population <> [] ->
  forall s,
    used (random (snd (choices population k s))) = (used (random s) + k)%nat /\
    draws (random (snd (choices population k s))) = draws (random s).
Proof.
  intros Hne. induction k as [| k IH]; intros s.
  - simpl. split; [lia | reflexivity].
  - simpl. unfold Py.bind, randbelow, next_below. cbv iota beta.
    set (i := (draws (random s) (used (random s)) mod length population)%nat).
    assert (i < length population)%nat as Hi.
    { apply Nat.mod_upper_bound. destruct population; simpl; congruence. }
    destruct (nth_error population i) as [c |] eqn:Hc.
    2:{ apply nth_error_None in Hc. lia. }
    match goal with |- context [choices population k ?s1] =>
      destruct (IH s1) as [Hu Hd];
      destruct (choices_run population k Hne s1) as (cs & g & Heq & _) end.
    rewrite Heq in *. simpl in *. split; [lia | assumption].
Qed.


(** X15: [generate_random_user] only draws random numbers: it leaves the
    registered users, the statistics and the trace as they are (no
    request, no log line), and takes exactly 18 numbers from the
    generator, 8 for the token and 10 for the phone. *)
Theorem generate_random_user_frame :
  forall s : session,
    let r := generate_random_user s in
    self (snd r) = self s /\
    trace (snd r) = trace s /\
    used (random (snd r)) = (used (random s) + 18)%nat /\
    draws (random (snd r)) = draws (random s).
Proof.
  intros s r.
  assert (Hr : r = generate_random_user s) by reflexivity. clearbody r.
  unfold generate_random_user, generate_random_string, Py.bind in Hr.
  destruct (choices_run ascii_lowercase 8 ltac:(discriminate) s)
    as (cs & g1 & Hcs & _).
  destruct (choices_generator ascii_lowercase 8 ltac:(discriminate) s) as [Hu1 Hd1].
  rewrite Hcs in Hu1, Hd1, Hr. unfold Py.ret at 1 in Hr. cbv iota beta in Hr.
  destruct (choices_run digits 10 ltac:(discriminate) (with_random s g1))
    as (ds & g2 & Hds & _).
  destruct (choices_generator digits 10 ltac:(discriminate) (with_random s g1))
    as [Hu2 Hd2].
  rewrite Hds in Hu2, Hd2, Hr. unfold Py.ret in Hr. subst r.
  cbn [snd fst random with_random self trace] in *.
  repeat split; [lia | congruence].
Qed.

Lemma append_inv_tail (a b tail : string) : a +:+ tail = b +:+ tail -> a = b.
Proof.
  intros H.
  assert (forall x y, list_ascii_of_string (x +:+ y)
                      = (list_ascii_of_string x ++ list_ascii_of_string y)%list) as Happ.
  { intros x y. induction x as [| c x IH]; simpl; [reflexivity | rewrite IH; reflexivity]. }
  apply (f_equal list_ascii_of_string) in H. rewrite !Happ in H.
  apply app_inv_tail in H.
  rewrite <- (string_of_list_ascii_of_string a), <- (string_of_list_ascii_of_string b).
  rewrite H. reflexivity.
Qed.

(** X2: the four identity fields of a generated user go together: two
    users that [generate_random_user] produced with the same email also
    have the same fullName, userName and password, whatever the sessions
    and generator states they came from. *)
Theorem generated_users_with_one_email :
  forall (s1 s2 s1' s2' : session) (u1 u2 : user),
    generate_random_user s1 = (inr u1, s1') ->
    generate_random_user s2 = (inr u2, s2') ->
    email u1 = email u2 ->
    fullName u1 = fullName u2 /\ userName u1 = userName u2 /\
    password u1 = password u2.
Proof.
  intros s1 s2 s1' s2' u1 u2 H1 H2 Hemail.
  destruct (generate_random_user_run s1) as (t1 & p1 & g1 & E1 & _).
  destruct (generate_random_user_run s2) as (t2 & p2 & g2 & E2 & _).
  rewrite E1 in H1. rewrite E2 in H2.
  injection H1 as <- _. injection H2 as <- _.
  simpl in Hemail. injection Hemail as Hemail.
  pose proof (append_inv_tail t1 t2 "@example.com" Hemail) as Ht.
  subst t2. simpl. auto.
Qed.

Lemma generated_users_with_one_email_witness :
  let u := {| fullName := "Test User dkryfmta";
              userName := "testuser_dkryfmta";
              email := "test_dkryfmta@example.com";
              password := "password_dkryfmta";
              phone := "9630741852" |} in
  let r1 := generate_random_user (new_session sample_now sample_rng) in
  let r2 := generate_random_user sample_session in
  r1 = (inr u, snd r1) /\ r2 = (inr u, snd r2) /\
  (fullName u = fullName u /\ userName u = userName u /\ password u = password u).
Proof.
  cbv zeta.
  assert (generate_random_user (new_session sample_now sample_rng) =
          (inr {| fullName := "Test User dkryfmta";
                  userName := "testuser_dkryfmta";
                  email := "test_dkryfmta@example.com";
                  password := "password_dkryfmta";
                  phone := "9630741852" |},
           snd (generate_random_user (new_session sample_now sample_rng)))) as H1
    by reflexivity.
  assert (generate_random_user sample_session =
          (inr {| fullName := "Test User dkryfmta";
                  userName := "testuser_dkryfmta";
                  email := "test_dkryfmta@example.com";
                  password := "password_dkryfmta";
                  phone := "9630741852" |},
           snd (generate_random_user sample_session))) as H2
    by reflexivity.
  split; [exact H1 |]. split; [exact H2 |].
  exact (generated_users_with_one_email _ _ _ _ _ _ H1 H2 eq_refl).
Defined.

(** ** The counters over a whole run *)

Lemma log_scenarios_app calls1 calls2 s :
  log_scenarios (calls1 ++ calls2) s = log_scenarios calls2 (log_scenarios calls1 s).
Proof. unfold log_scenarios. apply fold_left_app. Qed.

Lemma log_scenarios_count calls :
  forall s,
    let s' := log_scenarios calls s in
    total_requests (stats (self s'))
      = total_requests (stats (self s)) + Z.of_nat (length calls) /\
    failed_requests (stats (self s'))
      = failed_requests (stats (self s))
        + Z.of_nat (length (List.filter is_failing_call calls)) /\
    length (trace s') = (length (trace s) + length calls)%nat /\
    registered_users (self s') = registered_users (self s) /\
    random s' = random s.
Proof.
  unfold log_scenarios.
  induction calls as [| [[[now scenario] status] details] calls IH]; intros s.
  - simpl. repeat split; lia.
  - cbn [fold_left]. specialize (IH (snd (log_scenario now scenario status details s))).
    cbv zeta in IH. destruct IH as (Ht & Hf & Hl & Hr & Hg).
    cbv zeta. rewrite Ht, Hf, Hl, Hr, Hg. rewrite log_scenario_run.
    cbn [snd self stats total_requests failed_requests trace registered_users random
         List.filter is_failing_call length].
    rewrite length_app. cbn [length].
    destruct (is_failure_status status); cbn [length]; repeat split; lia.
Qed.

(** X3: [log_scenario] is a counter.  After any sequence of calls on a
    fresh session [total_requests] is the number of calls,
    [failed_requests] the number of calls whose status is FAIL or ERROR,
    and the log holds one line per call; the registered users and the
    random generator are never touched. *)
Theorem log_scenarios_counts_calls :
  forall (now : datetime) (g : rng) (calls : list log_call),
    let s := log_scenarios calls (new_session now g) in
    total_requests (stats (self s)) = Z.of_nat (length calls) /\
    failed_requests (stats (self s))
      = Z.of_nat (length (List.filter is_failing_call calls)) /\
    length (trace s) = length calls /\
    registered_users (self s) = [] /\
    random s = g.
Proof.
  intros now g calls s. subst s.
  destruct (log_scenarios_count calls (new_session now g)) as (Ht & Hf & Hl & Hr & Hg).
  cbn [new_session self stats UserBehavior_init Statistics_init total_requests
       failed_requests trace registered_users random length] in *.
  repeat split; try assumption; lia.
Qed.

(** X4: [Statistics.failure_percentage] guards its division.  On a fresh
    session it is the integer 0; after any non-empty sequence of
    [log_scenario] calls it is a float and never an exception; and as long
    as none of the calls carried FAIL or ERROR that float is [+0.0]. *)
Theorem failure_percentage_after_logging :
  forall (now : datetime) (g : rng) (calls : list log_call),
    let st := stats (self (log_scenarios calls (new_session now g))) in
    match calls with
    | [] => failure_percentage st = inr (JInt 0)
    | _ :: _ =>
        (exists x, failure_percentage st = inr (JFloat x)) /\
        (List.filter is_failing_call calls = [] ->
         failure_percentage st = inr (JFloat (S754_zero false)))
    end.
Proof.
  intros now g calls st.
  destruct (log_scenarios_count calls (new_session now g)) as (Ht & Hf & _).
  fold st in Ht, Hf.
  cbn [new_session self stats UserBehavior_init Statistics_init total_requests
       failed_requests] in Ht, Hf.
  destruct calls as [| c calls]; [reflexivity |].
  unfold failure_percentage, Py.int_true_div.
  assert ((total_requests st =? 0) = false) as Hnz
    by (apply Z.eqb_neq; rewrite Ht; simpl length; lia).
  rewrite Hnz. split; [eauto |].
  intros Hnone. rewrite Hf, Hnone, Ht. reflexivity.
Qed.

Ltac finish_accounting Hres res :=
  try rewrite log_scenario_run in Hres;
  unfold track_response_time, set_stats, Py.modify in Hres;
  simpl in Hres; subst res;
  cbn [fst snd trace self stats total_requests failed_requests];
  rewrite <- ?app_assoc;
  split; [reflexivity |]; split; [lia |];
  eexists; split; [reflexivity | simpl; lia].

Lemma register_accounting repr now server s :
  let r := scenario_register_new_user repr now server s in
  fst r = inr tt /\
  total_requests (stats (self (snd r))) = total_requests (stats (self s)) + 1 /\
  exists added,
    trace (snd r) = (trace s ++ added)%list /\
    accounted added
      (failed_requests (stats (self (snd r))) - failed_requests (stats (self s))).
Proof.
  intros res.
  assert (Hres : res = scenario_register_new_user repr now server s) by reflexivity.
  clearbody res.
  destruct (generate_random_user_run s) as (token & ph & g & Heq & _).
  unfold scenario_register_new_user, Py.bind at 1 in Hres. rewrite Heq in Hres.
  unfold Py.bind at 1, client_post, Py.bind at 1, emit, Py.modify, Py.ret in Hres.
  match type of Hres with context [server ?req] => set (r := server req) in * end.
  unfold Py.bind at 1, Py.try_except, response_msg, Py.bind, Py.lift in Hres.
  destruct (body r) as [e | b]; [finish_accounting Hres res |].
  destruct (Json.getitem b "msg") as [e | msg]; [finish_accounting Hres res |].
  destruct (Json.eq_str msg "User Registered"); finish_accounting Hres res.
Qed.

Lemma login_with_email_accounting repr now server s :
  let r := scenario_login_with_email repr now server s in
  fst r = inr tt /\
  total_requests (stats (self (snd r))) = total_requests (stats (self s)) + 1 /\
  exists added,
    trace (snd r) = (trace s ++ added)%list /\
    accounted added
      (failed_requests (stats (self (snd r))) - failed_requests (stats (self s))).
Proof.
  intros res.
  assert (Hres : res = scenario_login_with_email repr now server s) by reflexivity.
  clearbody res.
  destruct (registered_users (self s)) as [| u0 us] eqn:Hus.
  { rewrite login_with_email_skip in Hres by assumption. finish_accounting Hres res. }
  destruct (choice_run (registered_users (self s)) s ltac:(congruence))
    as (u & g & Hch & _).
  unfold scenario_login_with_email, Py.bind at 1, Py.gets in Hres.
  rewrite Hus in Hres, Hch.
  unfold Py.bind at 1 in Hres. rewrite Hch in Hres.
  unfold Py.bind at 1, client_post, Py.bind at 1, emit, Py.modify, Py.ret in Hres.
  match type of Hres with context [server ?req] => set (r := server req) in * end.
  unfold Py.try_except, response_msg_or, Py.bind, Py.lift in Hres.
  destruct (body r) as [e | b]; [finish_accounting Hres res |].
  destruct b as [| | | | text | items | members]; simpl in Hres;
    try finish_accounting Hres res.
  - destruct (Py.str_contains "token" text); finish_accounting Hres res.
  - destruct (existsb (fun x => Json.eq_str x "token") items);
      finish_accounting Hres res.
  - destruct (Json.lookup "token" members); finish_accounting Hres res.
Qed.

Lemma login_with_username_accounting repr now server s :
  let r := scenario_login_with_username repr now server s in
  fst r = inr tt /\
  total_requests (stats (self (snd r))) = total_requests (stats (self s)) + 1 /\
  exists added,
    trace (snd r) = (trace s ++ added)%list /\
    accounted added
      (failed_requests (stats (self (snd r))) - failed_requests (stats (self s))).
Proof.
  intros res.
  assert (Hres : res = scenario_login_with_username repr now server s) by reflexivity.
  clearbody res.
  destruct (registered_users (self s)) as [| u0 us] eqn:Hus.
  { rewrite login_with_username_skip in Hres by assumption. finish_accounting Hres res. }
  destruct (choice_run (registered_users (self s)) s ltac:(congruence))
    as (u & g & Hch & _).
  unfold scenario_login_with_username, Py.bind at 1, Py.gets in Hres.
  rewrite Hus in Hres, Hch.
  unfold Py.bind at 1 in Hres. rewrite Hch in Hres.
  unfold Py.bind at 1, client_post, Py.bind at 1, emit, Py.modify, Py.ret in Hres.
  match type of Hres with context [server ?req] => set (r := server req) in * end.
  unfold Py.try_except, response_msg_or, Py.bind, Py.lift in Hres.
  destruct (body r) as [e | b]; [finish_accounting Hres res |].
  destruct b as [| | | | text | items | members]; simpl in Hres;
    try finish_accounting Hres res.
  - destruct (Py.str_contains "token" text); finish_accounting Hres res.
  - destruct (existsb (fun x => Json.eq_str x "token") items);
      finish_accounting Hres res.
  - destruct (Json.lookup "token" members); finish_accounting Hres res.
Qed.

Lemma run_task_accounting repr t now server s :
  let r := run_task repr t now server s in
  fst r = inr tt /\
  total_requests (stats (self (snd r))) = total_requests (stats (self s)) + 1 /\
  exists added,
    trace (snd r) = (trace s ++ added)%list /\
    accounted added
      (failed_requests (stats (self (snd r))) - failed_requests (stats (self s))).
Proof.
  destruct t; simpl run_task.
  - apply register_accounting.
  - apply login_with_email_accounting.
  - apply login_with_username_accounting.
Qed.

(** X5: whatever the server answers, a scenario returns normally (no
    exception leaves it), counts exactly one request and adds to the
    trace either the single log line of a skipped login or a request
    followed by its log line and its verdict; [failed_requests] goes up,
    by one, exactly when that verdict is a failure. *)
Theorem scenario_accounts_for_itself :
  forall repr (t : task) now server (s : session),
    let r := run_task repr t now server s in
    fst r = inr tt /\
    total_requests (stats (self (snd r))) = total_requests (stats (self s)) + 1 /\
    exists added,
      trace (snd r) = (trace s ++ added)%list /\
      accounted added
        (failed_requests (stats (self (snd r))) - failed_requests (stats (self s))).
Proof.
  intros repr t now server s. destruct t; cbn [run_task].
  - apply register_accounting.
  - apply login_with_email_accounting.
  - apply login_with_username_accounting.
Qed.

Lemma count_app kind (a b : list event) :
  count kind (a ++ b) = count kind a + count kind b.
Proof.
  unfold count. rewrite List.filter_app, length_app. lia.
Qed.

Lemma accounted_counts added d :
  accounted added d ->
  count is_log_line added = 1 /\
  count is_failure added = d /\
  count is_post added = count is_success added + count is_failure added /\
  0 <= d <= 1.
Proof.
  unfold accounted.
  destruct added as [| e1 [| e2 [| e3 [| e4 rest]]]]; try contradiction;
    try (destruct e1; contradiction).
  - destruct e1; try contradiction. intros ->. repeat split; lia.
  - destruct e1; try contradiction. destruct e2; contradiction.
  - destruct e1; try contradiction. destruct e2; try contradiction.
    destruct e3; try contradiction; intros ->; repeat split; lia.
  - destruct e1; try contradiction. destruct e2; try contradiction.
    destruct e3; contradiction.
Qed.

Lemma run_schedule_accounting repr sched :
  forall s,
    let s' := run_schedule repr sched s in
    total_requests (stats (self s'))
      = total_requests (stats (self s)) + Z.of_nat (length sched) /\
    count is_log_line (trace s')
      = count is_log_line (trace s) + Z.of_nat (length sched) /\
    failed_requests (stats (self s')) - failed_requests (stats (self s))
      = count is_failure (trace s') - count is_failure (trace s) /\
    count is_post (trace s') - count is_post (trace s)
      = (count is_success (trace s') - count is_success (trace s))
        + (count is_failure (trace s') - count is_failure (trace s)) /\
    0 <= failed_requests (stats (self s')) - failed_requests (stats (self s))
      <= Z.of_nat (length sched).
Proof.
  unfold run_schedule.
  induction sched as [| [[t now] server] sched IH]; intros s.
  - simpl. repeat split; lia.
  - cbn [fold_left length]. cbv zeta.
    destruct (run_task_accounting repr t now server s)
      as (_ & Ht & added & Htr & Hacc).
    apply accounted_counts in Hacc. destruct Hacc as (Hl & Hf & Hp & Hd).
    specialize (IH (snd (run_task repr t now server s))). cbv zeta in IH.
    destruct IH as (It & Il & If & Ip & Id).
    rewrite Htr in Il, If, Ip.
    repeat rewrite count_app in Il. repeat rewrite count_app in If.
    repeat rewrite count_app in Ip.
    repeat split; lia.
Qed.

(** X6: the counters of a session mirror its trace.  After any schedule
    of tasks run on a fresh session, against any server, [total_requests]
    is the number of tasks run and the number of log lines,
    [failed_requests] is the number of responses marked as failures, and
    every request sent got exactly one verdict. *)
Theorem session_counters_mirror_the_trace :
  forall repr now0 g (sched : schedule),
    let s := run_schedule repr sched (new_session now0 g) in
    total_requests (stats (self s)) = Z.of_nat (length sched) /\
    count is_log_line (trace s) = Z.of_nat (length sched) /\
    failed_requests (stats (self s)) = count is_failure (trace s) /\
    count is_post (trace s) = count is_success (trace s) + count is_failure (trace s) /\
    0 <= failed_requests (stats (self s)) <= total_requests (stats (self s)).
Proof.
  intros repr now0 g sched s. subst s.
  destruct (run_schedule_accounting repr sched (new_session now0 g))
    as (Ht & Hl & Hf & Hp & Hd).
  cbn [new_session self stats UserBehavior_init Statistics_init total_requests
       failed_requests trace] in Ht, Hl, Hf, Hp, Hd.
  change (count is_log_line []) with 0 in Hl.
  change (count is_failure []) with 0 in Hf, Hp.
  change (count is_post []) with 0 in Hp.
  change (count is_success []) with 0 in Hp.
  repeat split; lia.
Qed.

(** ** The registered users *)

Section Leaves.

Context {B : Type} (f : session -> B).

Lemma leaves_ret {A} (a : A) : leaves f (Py.ret a).
Proof. intros s. reflexivity. Qed.

Lemma leaves_raise {A} e : leaves f (@Py.raise session A e).
Proof. intros s. reflexivity. Qed.

Lemma leaves_lift {A} (r : Py.exception + A) : leaves f (Py.lift r).
Proof. intros s. reflexivity. Qed.

Lemma leaves_gets {A} (g : session -> A) : leaves f (Py.gets g).
Proof. intros s. reflexivity. Qed.

Lemma leaves_bind {A C} (m : Py.M session A) (k : A -> Py.M session C) :
  leaves f m -> (forall a, leaves f (k a)) -> leaves f (Py.bind m k).
Proof.
  intros Hm Hk s. unfold Py.bind. specialize (Hm s).
  destruct (m s) as [[e | a] s1]; simpl in *; [assumption |].
  rewrite Hk. assumption.
Qed.

Lemma leaves_try_except {A} (m : Py.M session A) h :
  leaves f m -> (forall e, leaves f (h e)) -> leaves f (Py.try_except m h).
Proof.
  intros Hm Hh s. unfold Py.try_except. specialize (Hm s).
  destruct (m s) as [[e | a] s1]; simpl in *; [| assumption].
  rewrite Hh. assumption.
Qed.

End Leaves.

Lemma registered_emit e : leaves registered (emit e).
Proof. intros s. reflexivity. Qed.

Lemma registered_randbelow n : leaves registered (randbelow n).
Proof. intros s. reflexivity. Qed.

Lemma registered_log_scenario now scenario status details :
  leaves registered (log_scenario now scenario status details).
Proof. intros s. rewrite log_scenario_run. reflexivity. Qed.

Lemma registered_choice seq : leaves registered (choice seq).
Proof.
  unfold choice. destruct seq; [apply leaves_raise |].
  apply leaves_bind; [apply registered_randbelow |]. intros i.
  destruct (nth_error _ i); [apply leaves_ret | apply leaves_raise].
Qed.

Ltac leaves_step :=
  first
    [ apply leaves_ret | apply leaves_raise | apply leaves_lift | apply leaves_gets
    | apply registered_emit | apply registered_log_scenario | apply registered_choice
    | apply leaves_bind; [| intros ]
    | apply leaves_try_except; [| intros ]
    | match goal with
      | |- leaves _ (if ?b then _ else _) => destruct b
      | |- leaves _ (match ?x with _ => _ end) => destruct x
      end ].

Lemma registered_login_with_email repr now server :
  leaves registered (scenario_login_with_email repr now server).
Proof.
  unfold scenario_login_with_email, client_post, response_msg_or.
  repeat leaves_step.
Qed.

Lemma registered_login_with_username repr now server :
  leaves registered (scenario_login_with_username repr now server).
Proof.
  unfold scenario_login_with_username, client_post, response_msg_or.
  repeat leaves_step.
Qed.

Lemma register_registers repr now server s :
  exists u,
    generated u /\
    registered (snd (scenario_register_new_user repr now server s)) =
      if accepts server u then (registered s ++ [u])%list else registered s.
Proof.
  destruct (generate_random_user_run s)
    as (token & ph & g & Heq & H1 & H2 & H3 & H4).
  set (u := {| fullName := _ |}) in *.
  exists u. split.
  { exists token. subst u. cbn [fullName userName email password phone].
    repeat split; assumption. }
  remember (scenario_register_new_user repr now server s) as res eqn:Hres.
  unfold scenario_register_new_user, Py.bind at 1 in Hres. rewrite Heq in Hres.
  unfold Py.bind at 1, client_post, Py.bind at 1, emit, Py.modify, Py.ret in Hres.
  fold (register_request u) in Hres.
  unfold accepts, msg_of.
  set (r := server (register_request u)) in *.
  unfold Py.bind at 1, Py.try_except, response_msg, Py.bind, Py.lift in Hres.
  destruct (body r) as [e | b].
  - rewrite log_scenario_run in Hres. simpl in Hres. subst res. reflexivity.
  - destruct (Json.getitem b "msg") as [e | msg].
    + rewrite log_scenario_run in Hres. simpl in Hres. subst res. reflexivity.
    + destruct (Json.eq_str msg "User Registered");
        rewrite log_scenario_run in Hres; simpl in Hres; subst res; reflexivity.
Qed.

Lemma run_schedule_registered repr sched :
  forall s,
    exists new,
      registered (run_schedule repr sched s) = (registered s ++ new)%list /\
      Forall generated new /\
      (length new <= registrations sched)%nat.
Proof.
  unfold run_schedule, registrations.
  induction sched as [| [[t now] server] sched IH]; intros s.
  - exists []. simpl. rewrite app_nil_r. repeat split; [constructor | lia].
  - cbn [fold_left List.filter].
    destruct (IH (snd (run_task repr t now server s))) as (new & Hnew & Hall & Hlen).
    rewrite Hnew. destruct t; cbn [run_task is_register].
    + destruct (register_registers repr now server s) as (u & Hu & Hreg).
      rewrite Hreg. destruct (accepts server u).
      * exists (u :: new). rewrite <- app_assoc. cbn [length].
        repeat split; [constructor; assumption | lia].
      * exists new. cbn [length]. repeat split; [assumption | lia].
    + rewrite registered_login_with_email. exists new.
      repeat split; assumption.
    + rewrite registered_login_with_username. exists new.
      repeat split; assumption.
Qed.

(** X7: [registered_users] only ever grows, and only by the register
    scenario.  After any schedule the list a session started with is
    still there, in order, followed by users that [generate_random_user]
    built (one 8-letter token in the four identity fields, a 10-digit
    phone), at most one for each register task run; the two login
    scenarios never change the list. *)
Theorem registered_users_only_grow :
  forall repr (sched : schedule) (s : session),
    (exists new,
       registered_users (self (run_schedule repr sched s))
         = (registered_users (self s) ++ new)%list /\
       Forall generated new /\
       (length new <= registrations sched)%nat) /\
    forall now server,
      registered_users (self (snd (scenario_login_with_email repr now server s)))
        = registered_users (self s) /\
      registered_users (self (snd (scenario_login_with_username repr now server s)))
        = registered_users (self s).
Proof.
  intros repr sched s. split.
  - apply run_schedule_registered.
  - intros now server. split.
    + apply registered_login_with_email.
    + apply registered_login_with_username.
Qed.

(** ** The shutdown handler on every path *)

Ltac on_test_end_paths repr elapsed p :=
  let Hz := fresh "Hz" in
  let Ht := fresh "Ht" in
  let Hf := fresh "Hf" in
  destruct (Z.eq_dec (num_requests (total p)) 0) as [Hz | Hz];
  [ rewrite (on_test_end_no_requests repr elapsed p Hz)
  | destruct elapsed as [?test_duration | ?error];
    [ destruct (extra (total p) !! "total_requests") as [?tests |] eqn:Ht;
      [ destruct (extra (total p) !! "failed_requests") as [?failures |] eqn:Hf;
        [ rewrite (on_test_end_with_attributes repr _ p _ _ Hz Ht Hf)
        | rewrite (on_test_end_missing_second_attribute repr _ p _ Hz Ht Hf) ]
      | rewrite (on_test_end_missing_attribute repr _ p Hz Ht) ]
    | rewrite (on_test_end_unsupported repr _ p Hz) ] ];
  cbn [fst snd total process_exit_code directories files log].

Lemma report_dir_twice (dir : string) (D : gset string) :
  dir ∈ ({[ TestConfig.REPORT_DIR ]} ∪ ({[ TestConfig.REPORT_DIR ]} ∪ D) : gset string) <->
  dir = TestConfig.REPORT_DIR \/ dir ∈ D.
Proof. rewrite !elem_of_union, !elem_of_singleton. tauto. Qed.

(** X8: the exit code 0 is only ever the outcome of a passed run.  If the
    exit code was not 0 before the handler and is 0 after it, then the
    handler returned normally, the aggregate has at least MIN_REQUESTS
    requests, neither the failure rate nor the average response time is
    over its limit, both report files are in place under REPORT_DIR, and
    the last log line is the success message. *)
Theorem exit_code_zero_only_when_passed :
  forall repr elapsed p,
    process_exit_code p <> Some 0 ->
    process_exit_code (snd (on_test_end repr elapsed p)) = Some 0 ->
    fst (on_test_end repr elapsed p) = inr tt /\
    TestConfig.MIN_REQUESTS <= num_requests (total p) /\
    exceeds (failure_percent (total p)) TestConfig.FAILURE_THRESHOLD = false /\
    exceeds (avg_response_time (total p)) TestConfig.MAX_RESPONSE_TIME = false /\
    (exists test_duration,
       elapsed = Elapsed test_duration /\
       files (snd (on_test_end repr elapsed p)) !! json_report_path
         = Some (JsonDump (json_report (total p) test_duration) 2)) /\
    (exists xml,
       files (snd (on_test_end repr elapsed p)) !! junit_report_path = Some (Text xml)) /\
    TestConfig.REPORT_DIR ∈ directories (snd (on_test_end repr elapsed p)) /\
    log (snd (on_test_end repr elapsed p))
      = (log p ++ [LogInfo "Load test completed successfully!"])%list.
Proof.
  intros repr elapsed p Hbefore.
  on_test_end_paths repr elapsed p; intros Hafter; try congruence.
  destruct (failed_verdict _ _ _) eqn:Hv; [discriminate |].
  unfold failed_verdict in Hv.
  apply orb_false_elim in Hv as [Hv Hmin].
  apply orb_false_elim in Hv as [Hrate Havg].
  apply Z.ltb_ge in Hmin.
  split; [reflexivity |]. split; [exact Hmin |].
  split; [exact Hrate |]. split; [exact Havg |].
  split.
  { eexists. split; [reflexivity |].
    rewrite lookup_insert_ne by (symmetry; apply report_paths_differ).
    apply lookup_insert_eq. }
  split; [eexists; apply lookup_insert_eq |].
  split; [apply report_dir_twice; left; reflexivity | reflexivity].
Qed.

Lemma exit_code_zero_only_when_passed_witness :
  let p := with_junit_attributes (JInt 50) (JInt 0)
             (sample_process 50 0 (Py.float_of_int 300)) in
  process_exit_code p <> Some 0 /\
  process_exit_code (snd (on_test_end sample_repr (Elapsed "0:00:10") p)) = Some 0 /\
  fst (on_test_end sample_repr (Elapsed "0:00:10") p) = inr tt.
Proof.
  assert (process_exit_code
            (with_junit_attributes (JInt 50) (JInt 0)
               (sample_process 50 0 (Py.float_of_int 300))) <> Some 0)
    as Hbefore by discriminate.
  assert (process_exit_code
            (snd (on_test_end sample_repr (Elapsed "0:00:10")
                    (with_junit_attributes (JInt 50) (JInt 0)
                       (sample_process 50 0 (Py.float_of_int 300))))) = Some 0)
    as Hafter by (vm_compute; reflexivity).
  split; [exact Hbefore |]. split; [exact Hafter |].
  exact (proj1 (exit_code_zero_only_when_passed sample_repr (Elapsed "0:00:10")
                  (with_junit_attributes (JInt 50) (JInt 0)
                     (sample_process 50 0 (Py.float_of_int 300)))
                  Hbefore Hafter)).
Defined.


(** X10: the JUnit report on its own.  [generate_junit_report] creates
    REPORT_DIR before it reads anything, so the directory is there even
    when the call raises.  It returns normally exactly when the object it
    is given has both a [total_requests] and a [failed_requests]
    attribute; otherwise it raises AttributeError and writes no file.  A
    document it does write always holds the [<failure>] element: the test
    case is reported as failed whatever the two counts are.  It never
    touches the exit code, the log or another file. *)
Theorem generate_junit_report_alone :
  forall repr stats p,
    let r := generate_junit_report repr stats p in
    TestConfig.REPORT_DIR ∈ directories (snd r) /\
    process_exit_code (snd r) = process_exit_code p /\
    log (snd r) = log p /\
    (forall path, path <> junit_report_path -> files (snd r) !! path = files p !! path) /\
    (fst r = inr tt <->
       has_attribute stats "total_requests" && has_attribute stats "failed_requests" = true) /\
    match fst r with
    | inr _ =>
        exists xml,
          files (snd r) !! junit_report_path = Some (Text xml) /\
          Py.str_contains "<failure message=" xml = true
    | inl e =>
        (exists text, e = Py.AttributeError text) /\ files (snd r) = files p
    end.
Proof.
  intros repr stats p r. subst r.
  unfold generate_junit_report, has_attribute.
  unfold Py.bind at 1, mkdir, Py.modify.
  unfold Py.bind at 1, Py.lift. rewrite getattr_total_requests.
  destruct (extra stats !! "total_requests") as [tests |].
  - unfold Py.bind at 1. rewrite getattr_failed_requests.
    destruct (extra stats !! "failed_requests") as [failures |].
    + unfold write_file, Py.modify.
      cbn [fst snd directories process_exit_code log files andb].
      fold junit_report_path.
      split; [apply elem_of_union; left; apply elem_of_singleton; reflexivity |].
      split; [reflexivity |]. split; [reflexivity |].
      split; [intros path Hp; apply lookup_insert_ne; congruence |].
      split; [tauto |].
      eexists. split; [apply lookup_insert_eq | apply junit_template_has_failure].
    + cbn [fst snd directories process_exit_code log files andb].
      split; [apply elem_of_union; left; apply elem_of_singleton; reflexivity |].
      repeat split; try discriminate. eexists; reflexivity.
  - cbn [fst snd directories process_exit_code log files andb].
    split; [apply elem_of_union; left; apply elem_of_singleton; reflexivity |].
    repeat split; try discriminate. eexists; reflexivity.
Qed.




(** ** What a session sends *)

(** One run of the register scenario, by the server's answer. *)
Lemma register_step repr now server s :
  exists u line verdict,
    generated u /\
    trace (snd (scenario_register_new_user repr now server s))
      = (trace s ++ [Post (register_request u); LogInfo line; verdict])%list /\
    registered (snd (scenario_register_new_user repr now server s))
      = (if accepts server u then (registered s ++ [u])%list else registered s) /\
    (if accepts server u then verdict = Success else is_failure verdict = true) /\
    failed_requests (stats (self (snd (scenario_register_new_user repr now server s))))
      = failed_requests (stats (self s)) + (if accepts server u then 0 else 1).
Proof.
  destruct (generate_random_user_run s)
    as (token & ph & g & Heq & H1 & H2 & H3 & H4).
  set (u := {| fullName := _ |}) in *.
  exists u.
  assert (generated u) as Hu.
  { exists token. subst u. cbn [fullName userName email password phone].
    repeat split; assumption. }
  remember (scenario_register_new_user repr now server s) as res eqn:Hres.
  unfold scenario_register_new_user, Py.bind at 1 in Hres. rewrite Heq in Hres.
  unfold Py.bind at 1, client_post, Py.bind at 1, emit, Py.modify, Py.ret in Hres.
  fold (register_request u) in Hres.
  unfold accepts, msg_of.
  set (r := server (register_request u)) in *.
  unfold Py.bind at 1, Py.try_except, response_msg, Py.bind, Py.lift in Hres.
  destruct (body r) as [e | b];
    [| destruct (Json.getitem b "msg") as [e | msg];
       [| destruct (Json.eq_str msg "User Registered")]];
    rewrite log_scenario_run in Hres;
    unfold track_response_time, set_stats, registered_users_append, Py.modify in Hres;
    simpl in Hres; subst res;
    cbn [fst snd trace self stats failed_requests registered registered_users];
    rewrite <- ?app_assoc;
    eexists _, _; (split; [exact Hu |]); (split; [reflexivity |]);
    (split; [reflexivity |]); (split; [reflexivity | simpl; lia]).
Qed.







Lemma rejecting_cons t now server sched :
  rejecting ((t, now, server) :: sched) ->
  (forall u, accepts server u = false) /\ rejecting sched.
Proof.
  intros H. split.
  - intros u. apply (H t now server u). left. reflexivity.
  - intros t' now' server' u Hin. apply (H t' now' server' u). right. exact Hin.
Qed.

Lemma run_schedule_rejecting repr sched :
  forall s,
    rejecting sched -> registered s = [] ->
    let s' := run_schedule repr sched s in
    registered s' = [] /\
    failed_requests (stats (self s'))
      = failed_requests (stats (self s)) + Z.of_nat (registrations sched) /\
    count is_post (trace s') = count is_post (trace s) + Z.of_nat (registrations sched) /\
    count is_success (trace s') = count is_success (trace s).
Proof.
  unfold run_schedule, registrations.
  induction sched as [| [[t now] server] sched IH]; intros s Hrej Hnone.
  - cbn [fold_left List.filter length]. repeat split; [exact Hnone | lia | lia].
  - apply rejecting_cons in Hrej as [Hno Hrej].
    cbn [fold_left List.filter].
    destruct t; cbn [run_task is_register].
    + destruct (register_step repr now server s)
        as (u & line & verdict & _ & Htr & Hreg & Hv & Hfail).
      rewrite Hno in Hreg, Hv, Hfail.
      destruct (IH (snd (scenario_register_new_user repr now server s)) Hrej)
        as (Hr & Hf & Hp & Hs); [rewrite Hreg; exact Hnone |].
      rewrite Hr, Hf, Hp, Hs, Hfail, Htr. repeat rewrite count_app.
      destruct verdict; try discriminate.
      cbn [length]. unfold count; simpl. repeat split; lia.
    + destruct (IH (snd (scenario_login_with_email repr now server s)) Hrej)
        as (Hr & Hf & Hp & Hs);
        [rewrite (registered_login_with_email repr now server s); exact Hnone |].
      rewrite Hr, Hf, Hp, Hs.
      rewrite login_with_email_skip, log_scenario_run by exact Hnone.
      cbn [snd trace self stats failed_requests]. repeat rewrite count_app.
      unfold count; simpl. repeat split; lia.
    + destruct (IH (snd (scenario_login_with_username repr now server s)) Hrej)
        as (Hr & Hf & Hp & Hs);
        [rewrite (registered_login_with_username repr now server s); exact Hnone |].
      rewrite Hr, Hf, Hp, Hs.
      rewrite login_with_username_skip, log_scenario_run by exact Hnone.
      cbn [snd trace self stats failed_requests]. repeat rewrite count_app.
      unfold count; simpl. repeat split; lia.
Qed.

(** X13: against a server that accepts no registration, a fresh session
    never gets to log in.  [registered_users] stays empty, so every login
    task is skipped without a request: the requests sent are the
    registrations, one for each register task, none of them is marked a
    success, and [failed_requests] is the number of register tasks (a
    skipped login is counted as a request but not as a failure). *)
Theorem rejected_registrations_skip_every_login :
  forall repr now0 g (sched : schedule),
    rejecting sched ->
    let s := run_schedule repr sched (new_session now0 g) in
    registered_users (self s) = [] /\
    failed_requests (stats (self s)) = Z.of_nat (registrations sched) /\
    count is_post (trace s) = Z.of_nat (registrations sched) /\
    count is_success (trace s) = 0 /\
    total_requests (stats (self s)) - failed_requests (stats (self s))
      = Z.of_nat (length sched) - Z.of_nat (registrations sched).
Proof.
  intros repr now0 g sched Hrej s.
  destruct (run_schedule_rejecting repr sched (new_session now0 g) Hrej eq_refl)
    as (Hr & Hf & Hp & Hs).
  destruct (run_schedule_accounting repr sched (new_session now0 g)) as (Ht & _).
  fold s in Hr, Hf, Hp, Hs, Ht.
  cbn [new_session self stats UserBehavior_init Statistics_init total_requests
       failed_requests trace] in Hf, Hp, Hs, Ht.
  change (count is_post []) with 0 in Hp.
  change (count is_success []) with 0 in Hs.
  repeat split; try assumption; lia.
Qed.

Lemma rejected_registrations_skip_every_login_witness :
  let sched := [(Register, sample_now, refusing);
                (LoginWithEmail, sample_now, refusing);
                (LoginWithUsername, sample_now, refusing)] in
  rejecting sched /\
  failed_requests (stats (self (run_schedule sample_repr sched
                                  (new_session sample_now sample_rng)))) = 1.
Proof.
  assert (rejecting [(Register, sample_now, refusing);
                     (LoginWithEmail, sample_now, refusing);
                     (LoginWithUsername, sample_now, refusing)]) as Hrej.
  { intros t now server u Hin. simpl in Hin.
    destruct Hin as [H | [H | [H | []]]]; injection H as _ _ <-; reflexivity. }
  split; [exact Hrej |].
  exact (proj1 (proj2
    (rejected_registrations_skip_every_login sample_repr sample_now sample_rng
       [(Register, sample_now, refusing);
        (LoginWithEmail, sample_now, refusing);
        (LoginWithUsername, sample_now, refusing)] Hrej))).
Defined.

(** ** The order of the floats *)

Lemma fle_trans a b c :
  Py.fle a b = true -> Py.fle b c = true -> Py.fle a c = true.
Proof.
  unfold Py.fle, SFleb, SFcompare.
  destruct a as [sa | sa | | sa ma ea], b as [sb | sb | | sb mb eb],
           c as [sc | sc | | sc mc ec];
    try destruct sa; try destruct sb; try destruct sc;
    try reflexivity; try discriminate;
    repeat match goal with
           | |- context [(?x ?= ?y)%Z] => destruct (Z.compare_spec x y)
           | |- context [Pos.compare_cont Eq ?x ?y] =>
               change (Pos.compare_cont Eq x y) with (Pos.compare x y);
               destruct (Pos.compare_spec x y)
           end;
    simpl; try reflexivity; try discriminate; intros _ _; exfalso; lia.
Qed.

Lemma fle_total a b :
  is_number a = true -> is_number b = true -> Py.flt a b = false -> Py.fle b a = true.
Proof.
  unfold is_number, Py.fle, Py.flt, SFleb, SFltb, SFcompare.
  destruct a as [sa | sa | | sa ma ea], b as [sb | sb | | sb mb eb];
    try destruct sa; try destruct sb;
    try reflexivity; try discriminate;
    repeat match goal with
           | |- context [(?x ?= ?y)%Z] => destruct (Z.compare_spec x y)
           | |- context [Pos.compare_cont Eq ?x ?y] =>
               change (Pos.compare_cont Eq x y) with (Pos.compare x y);
               destruct (Pos.compare_spec x y)
           end;
    simpl; try reflexivity; try discriminate; intros _ _ _; exfalso; lia.
Qed.

Lemma nonneg_is_number x : nonneg x -> is_number x = true.
Proof. apply nonneg_fle_refl. Qed.

Lemma max_ge_right a b :
  nonneg a -> is_number b = true -> Py.fle b (Py.max a b) = true.
Proof.
  intros Ha Hb. unfold Py.max. destruct (Py.flt a b) eqn:Hlt; [exact Hb |].
  apply fle_total; [apply nonneg_is_number; exact Ha | exact Hb | exact Hlt].
Qed.

Lemma max_either a b : Py.max a b = a \/ Py.max a b = b.
Proof. unfold Py.max. destruct (Py.flt a b); auto. Qed.

Lemma run_schedule_max_le repr sched :
  forall s,
    nonneg (max_seen s) ->
    Py.fle (max_seen s) (max_seen (run_schedule repr sched s)) = true.
Proof.
  unfold run_schedule.
  induction sched as [| [[t now] server] sched IH]; intros s Hs.
  - apply nonneg_fle_refl. exact Hs.
  - cbn [fold_left].
    destruct (run_task_max repr t now server s Hs) as (_ & Hle & Hnn).
    eapply fle_trans; [exact Hle | apply IH; exact Hnn].
Qed.

Lemma run_schedule_latencies repr sched :
  forall s,
    nonneg (max_seen s) ->
    let s' := run_schedule repr sched s in
    Forall (fun latency =>
              is_number latency = true -> Py.fle latency (max_seen s') = true)
           (observed_latencies repr sched s) /\
    (max_seen s' = max_seen s \/ In (max_seen s') (observed_latencies repr sched s)) /\
    length (observed_latencies repr sched s) = registrations sched.
Proof.
  induction sched as [| [[t now] server] sched IH]; intros s Hs s'.
  - split; [constructor |]. split; [left; reflexivity | reflexivity].
  - subst s'. unfold run_schedule. cbn [fold_left observed_latencies].
    fold (run_schedule repr sched (snd (run_task repr t now server s))).
    destruct (run_task_max repr t now server s Hs) as (Hcase & Hle & Hnn).
    destruct (IH _ Hnn) as (Hall & Hmax & Hlen).
    pose proof (run_schedule_max_le repr sched _ Hnn) as Hmono.
    unfold registrations in *. cbn [List.filter].
    destruct t; cbn [is_register].
    + destruct Hcase as (u & g & Hu & Hstep). rewrite Hu. cbn [fst app length].
      split; [constructor; [| exact Hall] |].
      * intros Hnum. eapply fle_trans; [| exact Hmono].
        rewrite Hstep. apply max_ge_right; assumption.
      * split; [| rewrite Hlen; reflexivity].
        destruct Hmax as [Hmax | Hin]; [| right; right; exact Hin].
        rewrite Hmax, Hstep.
        destruct (max_either (max_seen s) (latency_ms (server (register_request u))))
          as [-> | ->]; [left; reflexivity | right; left; reflexivity].
    + cbn [app]. split; [exact Hall |]. split; [| exact Hlen].
      destruct Hmax as [Hmax | Hin]; [left; congruence | right; exact Hin].
    + cbn [app]. split; [exact Hall |]. split; [| exact Hlen].
      destruct Hmax as [Hmax | Hin]; [left; congruence | right; exact Hin].
Qed.

(** X14: [max_response_time] is the maximum of what was measured.  After
    any schedule run on a fresh session, the register tasks have observed
    one latency each; [max_response_time] is at least every observed
    latency that is a number, and it is itself one of the observed
    latencies unless it still has its initial value 0 (no registration
    yet, or none with a positive latency).  A latency that is not a
    number never enters it. *)
Theorem max_response_time_is_the_maximum :
  forall repr now0 g (sched : schedule),
    let s0 := new_session now0 g in
    let s := run_schedule repr sched s0 in
    Forall (fun latency =>
              is_number latency = true ->
              Py.fle latency (max_response_time (stats (self s))) = true)
           (observed_latencies repr sched s0) /\
    (max_response_time (stats (self s)) = S754_zero false \/
     In (max_response_time (stats (self s))) (observed_latencies repr sched s0)) /\
    length (observed_latencies repr sched s0) = registrations sched /\
    is_number (max_response_time (stats (self s))) = true.
Proof.
  intros repr now0 g sched s0 s.
  assert (nonneg (max_seen s0)) as H0 by reflexivity.
  destruct (run_schedule_latencies repr sched s0 H0) as (Hall & Hmax & Hlen).
  split; [exact Hall |]. split; [exact Hmax |]. split; [exact Hlen |].
  apply nonneg_is_number. apply run_schedule_nonneg. exact H0.
Qed.

(** ** The model on the specification's examples *)

Example let_star_sequences :
  (let* _ := Py.modify (Z.add 1) in let* n := Py.get in Py.ret (n * 2)) 3
  = (inr 8, 4).
Proof. reflexivity. Qed.

(** 5 / 100 is the double nearest to 0.05, and times 100 it is 5.0. *)
Example failure_percent_5_of_100 :
  Py.int_true_div 5 100 = inr (S754_finite false 7205759403792794 (-57)) /\
  failure_percent (total (sample_process 100 5 (Py.float_of_int 500)))
  = Py.float_of_int 5.
Proof. split; reflexivity. Qed.

(** The verdicts of the two aggregates the specification gives. *)
Example verdict_100_5_500 :
  failed_verdict (failure_percent (total (sample_process 100 5 (Py.float_of_int 500))))
                 (Py.float_of_int 500) 100 = true.
Proof. reflexivity. Qed.

Example verdict_50_0_300 :
  failed_verdict (failure_percent (total (sample_process 50 0 (Py.float_of_int 300))))
                 (Py.float_of_int 300) 50 = false.
Proof. reflexivity. Qed.

Example strftime_sample : strftime sample_now = "2024-03-09 14:05:00".
Proof. reflexivity. Qed.
